(** * bvzlocalization: a shallow embedding of [LocalizedResource]

    The development follows [src/bvzlocalization.py] and
    [src/bvzlocalizationerror.py].  Python [str] values are modelled as
    [string] (a sequence of 8-bit characters; every pattern the program
    searches for is 7-bit, so searching the UTF-8 bytes of a text finds
    the same occurrences as searching its code points).  Python's
    [str.lower] is a parameter, [StrLower], known by what it does on
    7-bit text.  The class inherits [has_section],
    [has_option], [get] and [read] from CPython's
    [configparser.ConfigParser] (through the alias [SafeConfigParser],
    with the default [BasicInterpolation]); their behaviour on the
    parser's two dictionaries is modelled in module [ConfigParser]
    below, and what the operating system and the reader of [.ini] files
    contribute is a parameter, [Env].  Paths are joined as [posixpath]
    joins them.  A method of the class is a function from the instance
    to an outcome and the instance afterwards. *)

From Stdlib Require Import String Ascii ZArith Lia List Bool DecimalString.
From stdpp Require Import base option gmap strings.

(** ** Python strings *)

Module PyStr.

(** [s.startswith(p)] *)
Definition startswith (s p : string) : bool := String.prefix p s.

(** [c in s] for a one-character [c] *)
Fixpoint contains_char (c : ascii) (s : string) : bool :=
  match s with
  | EmptyString => false
  | String d s' => if Ascii.eqb c d then true else contains_char c s'
  end.

(** [s.endswith(c)] for a one-character [c] *)
Fixpoint endswith_char (s : string) (c : ascii) : bool :=
  match s with
  | EmptyString => false
  | String d EmptyString => Ascii.eqb c d
  | String _ s' => endswith_char s' c
  end.

(** The scan behind [s.replace(old, new)] for a non-empty [old]: read
    [s] left to right; at a position where [old] starts, emit [new] and
    pass over the rest of the occurrence ([skip] counts the characters
    of it still to pass), otherwise emit the character. *)
Fixpoint replace_from (old new : string) (skip : nat) (s : string) : string :=
  match s with
  | EmptyString => EmptyString
  | String c s' =>
      match skip with
      | S k => replace_from old new k s'
      | O =>
          if String.prefix old s
          then new +:+ replace_from old new (String.length old - 1) s'
          else String c (replace_from old new 0 s')
      end
  end.

(** With an empty [old], Python puts [new] before every character and
    at the end. *)
Fixpoint intersperse (new s : string) : string :=
  match s with
  | EmptyString => new
  | String c s' => new +:+ String c (intersperse new s')
  end.

(** [s.replace(old, new)]: every non-overlapping occurrence of [old],
    leftmost first. *)
Definition replace (s old new : string) : string :=
  match old with
  | EmptyString => intersperse new s
  | String _ _ => replace_from old new 0 s
  end.

(** [s.isascii()]: every character is a 7-bit one. *)
Fixpoint isascii (s : string) : bool :=
  match s with
  | EmptyString => true
  | String c s' => (nat_of_ascii c <? 128)%nat && isascii s'
  end.

(** The lower-casing of the 7-bit letters [A] to [Z], one character. *)
Definition ascii_lower_char (c : ascii) : ascii :=
  let n := nat_of_ascii c in
  if (65 <=? n)%nat && (n <=? 90)%nat then ascii_of_nat (n + 32) else c.

(** The lower-casing of the 7-bit letters of a text; it leaves every
    other character alone, so it is [s.lower()] for a 7-bit [s] only. *)
Fixpoint ascii_lower (s : string) : string :=
  match s with
  | EmptyString => EmptyString
  | String c s' => String (ascii_lower_char c) (ascii_lower s')
  end.

(** [str(z)] for an [int]: the decimal numeral, with a leading [-] for
    negatives. *)
Definition of_int (z : Z) : string := NilZero.string_of_int (Z.to_int z).

End PyStr.

(** ** Colour constants (module level of [bvzlocalization.py]) *)

(** The escape character [\033], the text of the Python literal
    ["\n"] (a newline) and that of [r"\n"] (a backslash and an [n]). *)
Definition ESC : ascii := "027"%char.
Definition NEWLINE : string := String "010"%char EmptyString.
Definition BACKSLASH_N : string := String "092"%char "n".

Definition BLACK : string := String ESC "[30m".
Definition RED : string := String ESC "[31m".
Definition GREEN : string := String ESC "[32m".
Definition YELLOW : string := String ESC "[33m".
Definition BLUE : string := String ESC "[34m".
Definition MAGENTA : string := String ESC "[35m".
Definition CYAN : string := String ESC "[36m".
Definition WHITE : string := String ESC "[37m".
Definition BRIGHT_RED : string := String ESC "[91m".
Definition BRIGHT_GREEN : string := String ESC "[92m".
Definition BRIGHT_YELLOW : string := String ESC "[93m".
Definition BRIGHT_BLUE : string := String ESC "[94m".
Definition BRIGHT_MAGENTA : string := String ESC "[95m".
Definition BRIGHT_CYAN : string := String ESC "[96m".
Definition BRIGHT_WHITE : string := String ESC "[97m".
Definition ENDC : string := String ESC "[0m".

(** ** Python values, exceptions and outcomes *)

(** The values that reach the program's type assertions. *)
Inductive value : Type :=
| VStr (s : string)
| VInt (z : Z)
| VBool (b : bool)
| VNone.

Inductive py_type : Type := str_t | int_t | bool_t | NoneType_t.

(** [type(v)] *)
Definition type (v : value) : py_type :=
  match v with
  | VStr _ => str_t
  | VInt _ => int_t
  | VBool _ => bool_t
  | VNone => NoneType_t
  end.

Definition py_type_eqb (a b : py_type) : bool :=
  match a, b with
  | str_t, str_t | int_t, int_t | bool_t, bool_t | NoneType_t, NoneType_t => true
  | _, _ => false
  end.

(** [type(v) is t] *)
Definition type_is (v : value) (t : py_type) : bool := py_type_eqb (type v) t.

(** [str(v)], which is also what an f-string field [{v}] prints. *)
Definition str (v : value) : string :=
  match v with
  | VStr s => s
  | VInt z => PyStr.of_int z
  | VBool true => "True"
  | VBool false => "False"
  | VNone => "None"
  end.

(** Exceptions.  [LocalizationError] is the class of
    [bvzlocalizationerror.py] with its two attributes; the others are
    built-in or raised by [configparser]. *)
Inductive exn : Type :=
| LocalizationError (message : string) (code : Z)
| AssertionError
| TypeError
| NoSectionError (section : string)
| NoOptionError (option section : string)
| InterpolationSyntaxError (option section : string)
| InterpolationMissingOptionError (option section reference : string)
| InterpolationDepthError (option section : string)
| ParsingError (source : string).

(** [LocalizationError(message, errno=0)] *)
Definition LocalizationError__init__ (message : string) (errno : option Z) : exn :=
  LocalizationError message (default 0%Z errno).

(** The [errno] property of a [LocalizationError]. *)
Definition errno (e : exn) : option Z :=
  match e with
  | LocalizationError _ code => Some code
  | _ => None
  end.

Inductive outcome (A : Type) : Type :=
| Return (a : A)
| Raise (e : exn).
Arguments Return {A} a.
Arguments Raise {A} e.

#[global] Instance outcome_ret : MRet outcome := fun A a => Return a.
#[global] Instance outcome_bind : MBind outcome := fun A B f m =>
  match m with
  | Return a => f a
  | Raise e => Raise e
  end.

(** [assert b] *)
Definition assert (b : bool) : outcome unit :=
  if b then Return tt else Raise AssertionError.

(** ** [str.lower] *)

(** Python's [str.lower] lower-cases every cased character by the case
    mapping of the Unicode character database, which is no part of the
    program.  It is a parameter of the development, known by what it
    does on 7-bit text: there it lower-cases the letters [A] to [Z] and
    nothing else.  Every definition and theorem that depends on it
    holds for every such function, Python's among them. *)
Class StrLower : Type := {
  str_lower : string -> string;
  str_lower_ascii :
    forall s, PyStr.isascii s = true -> str_lower s = PyStr.ascii_lower s
}.

(** ** [configparser.ConfigParser], as far as the class uses it *)

Module ConfigParser.

(** The parser's two dictionaries: [_sections] maps a section name to
    its options, [_defaults] holds the options of the [DEFAULT]
    section.  An option read without a value (the parser is created
    with [allow_no_value=True]) is stored as [None]. *)
Record t : Type := mk {
  _sections : gmap string (gmap string (option string));
  _defaults : gmap string (option string)
}.

(** A parser right after [ConfigParser.__init__]. *)
Definition empty : t := {| _sections := ∅; _defaults := ∅ |}.

Definition default_section : string := "DEFAULT".
Definition MAX_INTERPOLATION_DEPTH : nat := 10.

(** [optionxform]: [optionstr.lower()]. *)
Definition optionxform {SL : StrLower} (optionstr : string) : string :=
  str_lower optionstr.

(** [has_section]: the default section is not acknowledged. *)
Definition has_section (p : t) (section : string) : bool :=
  bool_decide (is_Some (_sections p !! section)).

(** [has_option] *)
Definition has_option {SL : StrLower} (p : t) (section option : string) : bool :=
  if String.eqb section "" || String.eqb section default_section then
    bool_decide (is_Some (_defaults p !! optionxform option))
  else
    match _sections p !! section with
    | None => false
    | Some sectiondict =>
        let option := optionxform option in
        bool_decide (is_Some (sectiondict !! option))
        || bool_decide (is_Some (_defaults p !! option))
    end.

(** The lookup of [ChainMap(vardict, sectiondict, self._defaults)] with
    an empty [vardict]. *)
Definition chain (sectiondict defaults : gmap string (option string))
    (key : string) : option (option string) :=
  match sectiondict !! key with
  | Some v => Some v
  | None => defaults !! key
  end.

(** [_unify_values(section, vars=None)] *)
Definition _unify_values (p : t) (section : string)
    : outcome (string -> option (option string)) :=
  match _sections p !! section with
  | Some sectiondict => Return (chain sectiondict (_defaults p))
  | None =>
      if String.eqb section default_section
      then Return (chain ∅ (_defaults p))
      else Raise (NoSectionError section)
  end.

(** The match of [_KEYCRE = %\(([^)]+)\)s] at a [%(]: [after] is the
    text behind the parenthesis, the result is group 1. *)
Fixpoint keycre_name (after : string) : option string :=
  match after with
  | EmptyString => None
  | String c after' =>
      if Ascii.eqb c ")"%char then
        if String.prefix "s" after' then Some EmptyString else None
      else
        name ← keycre_name after'; Some (String c name)
  end.

Definition keycre (after : string) : option string :=
  match keycre_name after with
  | Some EmptyString => None
  | r => r
  end.

(** The [while rest] loop of [BasicInterpolation._interpolate_some],
    one character at a time: [skip] is the number of characters of the
    current [%%] or [%(name)s] still to pass over, [deeper] the
    recursive call on the value of a referenced option. *)
Fixpoint _interpolate_loop {SL : StrLower} (deeper : string -> outcome string)
    (map : string -> option (option string)) (option section : string)
    (skip : nat) (rest : string) {struct rest} : outcome string :=
  match rest with
  | EmptyString => Return EmptyString
  | String c rest' =>
      match skip with
      | S k => _interpolate_loop deeper map option section k rest'
      | O =>
          if Ascii.eqb c "%"%char then
            match rest' with
            | EmptyString => Raise (InterpolationSyntaxError option section)
            | String c1 after =>
                if Ascii.eqb c1 "%"%char then
                  accum ← _interpolate_loop deeper map option section 1 rest';
                  Return (String "%"%char accum)
                else if Ascii.eqb c1 "("%char then
                  match keycre after with
                  | None => Raise (InterpolationSyntaxError option section)
                  | Some name =>
                      match map (optionxform name) with
                      | None =>
                          Raise (InterpolationMissingOptionError
                                   option section (optionxform name))
                      | Some None => Raise TypeError
                      | Some (Some v) =>
                          head ← (if PyStr.contains_char "%"%char v
                                  then deeper v else Return v);
                          accum ← _interpolate_loop deeper map option section
                                    (String.length name + 3) rest';
                          Return (head +:+ accum)
                      end
                  end
                else Raise (InterpolationSyntaxError option section)
            end
          else
            accum ← _interpolate_loop deeper map option section 0 rest';
            Return (String c accum)
      end
  end.

(** [BasicInterpolation._interpolate_some]; [fuel] is
    [MAX_INTERPOLATION_DEPTH + 1 - depth], so that no fuel is
    [depth > MAX_INTERPOLATION_DEPTH]. *)
Fixpoint _interpolate_some {SL : StrLower} (fuel : nat)
    (map : string -> option (option string))
    (option section rest : string) : outcome string :=
  match fuel with
  | O => Raise (InterpolationDepthError option section)
  | S fuel' =>
      _interpolate_loop (_interpolate_some fuel' map option section)
        map option section 0 rest
  end.

(** [BasicInterpolation.before_get] *)
Definition before_get {SL : StrLower} (map : string -> option (option string))
    (section option value : string) : outcome string :=
  _interpolate_some MAX_INTERPOLATION_DEPTH map option section value.

(** [get(section, option)] with [raw=False], no [vars], no [fallback]. *)
Definition get {SL : StrLower} (p : t) (section option : string) : outcome value :=
  d ← _unify_values p section;
  let option := optionxform option in
  match d option with
  | None => Raise (NoOptionError option section)
  | Some None => Return VNone
  | Some (Some value) =>
      s ← before_get d section option value; Return (VStr s)
  end.

(** Adding what a file holds to what the parser holds already: a section
    read again updates the options of the one present. *)
Definition update (parsed p : t) : t :=
  {| _sections := union_with (fun new old => Some (new ∪ old))
                    (_sections parsed) (_sections p);
     _defaults := _defaults parsed ∪ _defaults p |}.

End ConfigParser.

(** ** The operating system, as far as the class uses it *)

(** [os.path.exists] and [os.path.abspath] depend on the file system and
    on the working directory; [parse] is what [configparser]'s reader
    makes of the file at a path: the two dictionaries it holds (empty
    ones for a file that cannot be opened, which [read] passes over in
    silence), or the error the reader raises on a malformed file. *)
Record Env : Type := {
  path_exists : string -> bool;
  path_abspath : string -> string;
  parse : string -> outcome ConfigParser.t
}.

(** [os.path.join(a, b)] of [posixpath]. *)
Definition path_join (a b : string) : string :=
  if PyStr.startswith b "/" then b
  else if String.eqb a "" || PyStr.endswith_char a "/"%char then a +:+ b
  else a +:+ "/" +:+ b.

(** ** The class [LocalizedResource] *)

(** An instance: the inherited parser and the three attributes set by
    [__init__]. *)
Record LocalizedResource : Type := {
  parser : ConfigParser.t;
  resources_d : string;
  resources_n : string;
  resources_p : string
}.

(** A method body: it runs on an instance and ends with a value or an
    exception, and with the instance as the body leaves it. *)
Definition M (A : Type) : Type :=
  LocalizedResource -> outcome A * LocalizedResource.

#[global] Instance M_ret : MRet M := fun A a self => (Return a, self).
#[global] Instance M_bind : MBind M := fun A B f m self =>
  match m self with
  | (Return a, self') => f a self'
  | (Raise e, self') => (Raise e, self')
  end.

Definition raise {A : Type} (e : exn) : M A := fun self => (Raise e, self).
Definition lift {A : Type} (o : outcome A) : M A := fun self => (o, self).

(** Reading an attribute of [self]. *)
Definition attr {A : Type} (field : LocalizedResource -> A) : M A :=
  fun self => (Return (field self), self).

(** [self.parser], [self.resources_d], [self.resources_n] and
    [self.resources_p], read. *)
Definition self_parser : M ConfigParser.t := attr parser.
Definition self_resources_d : M string := attr resources_d.
Definition self_resources_n : M string := attr resources_n.
Definition self_resources_p : M string := attr resources_p.

(** Assignments to the attributes of [self]. *)
Definition set_parser (p : ConfigParser.t) : M unit := fun self =>
  (Return tt, {| parser := p; resources_d := resources_d self;
                 resources_n := resources_n self; resources_p := resources_p self |}).
Definition set_resources_d (v : string) : M unit := fun self =>
  (Return tt, {| parser := parser self; resources_d := v;
                 resources_n := resources_n self; resources_p := resources_p self |}).
Definition set_resources_n (v : string) : M unit := fun self =>
  (Return tt, {| parser := parser self; resources_d := resources_d self;
                 resources_n := v; resources_p := resources_p self |}).
Definition set_resources_p (v : string) : M unit := fun self =>
  (Return tt, {| parser := parser self; resources_d := resources_d self;
                 resources_n := resources_n self; resources_p := v |}).

(** The inherited methods, called on [self]. *)
Definition has_section (section : string) : M bool :=
  p ← self_parser; mret (ConfigParser.has_section p section).
Definition has_option {SL : StrLower} (section option : string) : M bool :=
  p ← self_parser; mret (ConfigParser.has_option p section option).
Definition get {SL : StrLower} (section option : string) : M value :=
  p ← self_parser; lift (ConfigParser.get p section option).

(** [self.read(filename)] *)
Definition read (env : Env) (filename : string) : M unit :=
  parsed ← lift (parse env filename);
  p ← self_parser;
  set_parser (ConfigParser.update parsed p).

(** [_read_resources(self)] *)
Definition _read_resources (env : Env) : M unit :=
  p ← self_resources_p;
  if negb (path_exists env p) then
    let msg := "Cannot locate resource file: " +:+ path_abspath env p in
    let code := 1%Z in
    raise (LocalizationError__init__ msg (Some code))
  else
    read env p.

(** [__init__(self, resources_d, prefix, language="english")]; a [None]
    for [language] is a call that leaves the argument out. *)
Definition __init__ (env : Env) (resources_d : value) (prefix : string)
    (language : option string) : M unit :=
  let language := default "english" language in
  _ ← lift (assert (type_is resources_d str_t));
  if negb (path_exists env (str resources_d)) then
    raise (LocalizationError__init__
             ("Resources directory " +:+ str resources_d +:+ " does not exist.") None)
  else
    _ ← set_parser ConfigParser.empty;
    _ ← set_resources_d (str resources_d);
    _ ← set_resources_n (prefix +:+ "_" +:+ language +:+ ".ini");
    d ← self_resources_d;
    n ← self_resources_n;
    _ ← set_resources_p (path_join d n);
    _read_resources env.

(** [_format_string(msg)] *)
Definition _format_string (msg : value) : outcome string :=
  _ ← assert (type_is msg str_t);
  match msg with
  | VStr msg =>
      let output := PyStr.replace msg BACKSLASH_N NEWLINE in
      let output := PyStr.replace output "{{COLOR_BLACK}}" BLACK in
      let output := PyStr.replace output "{{COLOR_RED}}" RED in
      let output := PyStr.replace output "{{COLOR_GREEN}}" GREEN in
      let output := PyStr.replace output "{{COLOR_YELLOW}}" YELLOW in
      let output := PyStr.replace output "{{COLOR_BLUE}}" BLUE in
      let output := PyStr.replace output "{{COLOR_MAGENTA}}" MAGENTA in
      let output := PyStr.replace output "{{COLOR_CYAN}}" CYAN in
      let output := PyStr.replace output "{{COLOR_WHITE}}" WHITE in
      let output := PyStr.replace output "{{COLOR_BRIGHT_RED}}" BRIGHT_RED in
      let output := PyStr.replace output "{{COLOR_BRIGHT_GREEN}}" BRIGHT_GREEN in
      let output := PyStr.replace output "{{COLOR_BRIGHT_YELLOW}}" BRIGHT_YELLOW in
      let output := PyStr.replace output "{{COLOR_BRIGHT_BLUE}}" BRIGHT_BLUE in
      let output := PyStr.replace output "{{COLOR_BRIGHT_MAGENTA}}" BRIGHT_MAGENTA in
      let output := PyStr.replace output "{{COLOR_BRIGHT_CYAN}}" BRIGHT_CYAN in
      let output := PyStr.replace output "{{COLOR_BRIGHT_WHITE}}" BRIGHT_WHITE in
      let output := PyStr.replace output "{{COLOR_NONE}}" ENDC in
      Return output
  | _ => Raise AssertionError
  end.

(** [get_error_msg(self, code)] *)
Definition get_error_msg {SL : StrLower} (code : value) : M string :=
  _ ← lift (assert (type_is code str_t || type_is code int_t));
  section_present ← has_section "error_codes";
  if negb section_present then
    p ← self_resources_p;
    let msg := "Localization file " +:+ p
               +:+ " is corrupt: It is missing the error_codes section." in
    raise (LocalizationError__init__ msg (Some 2%Z))
  else
    option_present ← has_option "error_codes" (str code);
    if negb option_present then
      p ← self_resources_p;
      let msg := "Localization file " +:+ p
                 +:+ " is corrupt: It is missing the error_code: "
                 +:+ str code +:+ "." in
      raise (LocalizationError__init__ msg (Some 3%Z))
    else
      msg ← get "error_codes" (str code);
      msg ← lift (_format_string msg);
      mret msg.

(** [get_msg(self, message_key)] *)
Definition get_msg {SL : StrLower} (message_key : value) : M string :=
  _ ← lift (assert (type_is message_key str_t));
  section_present ← has_section "messages";
  if negb section_present then
    p ← self_resources_p;
    let msg := "Localization file " +:+ p
               +:+ " is corrupt: It is missing the messages section." in
    raise (LocalizationError__init__ msg (Some 4%Z))
  else
    option_present ← has_option "messages" (str message_key);
    if negb option_present then
      p ← self_resources_p;
      let msg := "Localization file " +:+ p
                 +:+ " is corrupt: It is missing the message: "
                 +:+ str message_key +:+ "." in
      raise (LocalizationError__init__ msg (Some 5%Z))
    else
      msg ← get "messages" (str message_key);
      msg ← lift (_format_string msg);
      mret msg.

(** An object before [__init__] has run on it. *)
Definition blank : LocalizedResource :=
  {| parser := ConfigParser.empty; resources_d := ""; resources_n := "";
     resources_p := "" |}.

(** [LocalizedResource(resources_d, prefix, language)]: the instance, or
    the exception that [__init__] raises. *)
Definition new (env : Env) (resources_d : value) (prefix : string)
    (language : option string) : outcome LocalizedResource :=
  match __init__ env resources_d prefix language blank with
  | (Return _, self) => Return self
  | (Raise e, _) => Raise e
  end.

(** ** The substitutions of [_format_string], as a table *)

(** The seventeen [replace] calls of [_format_string], in the order of
    the source. *)
Definition substitutions : list (string * string) :=
  [ (BACKSLASH_N, NEWLINE);
    ("{{COLOR_BLACK}}", BLACK);
    ("{{COLOR_RED}}", RED);
    ("{{COLOR_GREEN}}", GREEN);
    ("{{COLOR_YELLOW}}", YELLOW);
    ("{{COLOR_BLUE}}", BLUE);
    ("{{COLOR_MAGENTA}}", MAGENTA);
    ("{{COLOR_CYAN}}", CYAN);
    ("{{COLOR_WHITE}}", WHITE);
    ("{{COLOR_BRIGHT_RED}}", BRIGHT_RED);
    ("{{COLOR_BRIGHT_GREEN}}", BRIGHT_GREEN);
    ("{{COLOR_BRIGHT_YELLOW}}", BRIGHT_YELLOW);
    ("{{COLOR_BRIGHT_BLUE}}", BRIGHT_BLUE);
    ("{{COLOR_BRIGHT_MAGENTA}}", BRIGHT_MAGENTA);
    ("{{COLOR_BRIGHT_CYAN}}", BRIGHT_CYAN);
    ("{{COLOR_BRIGHT_WHITE}}", BRIGHT_WHITE);
    ("{{COLOR_NONE}}", ENDC) ].


(** Running a list of substitutions over a text, first to last. *)
Definition replace_all (l : list (string * string)) (s : string) : string :=
  fold_left (fun output '(old, new) => PyStr.replace output old new) l s.

(** The text that [_format_string] returns for a [str]. *)
Definition formatted (s : string) : string :=
  match _format_string (VStr s) with
  | Return output => output
  | Raise _ => s
  end.

(** ** Occurrences that cannot straddle a boundary *)

(** Two texts that differ at a position both have. *)
Definition clash (u w : string) : bool :=
  negb (String.prefix u w) && negb (String.prefix w u).

(** Every non-empty suffix of [u] clashes with [w]: no occurrence of a
    pattern ending in [u] continues into a text starting with [w]. *)
Fixpoint clear_right_from (u w : string) : bool :=
  match u with
  | EmptyString => true
  | String _ u' => clash u w && clear_right_from u' w
  end.

Definition clear_right (old w : string) : bool :=
  match old with
  | EmptyString => false
  | String _ u => clear_right_from u w
  end.

(** No suffix of [w] shorter than [old] starts [old]: no occurrence of
    [old] begins inside [w] and runs past its end. *)
Fixpoint clear_left (old w : string) : bool :=
  match w with
  | EmptyString => true
  | String _ w' =>
      (negb (String.prefix w old) || (String.length old <=? String.length w)%nat)
      && clear_left old w'
  end.

(** [pass l w] follows a piece [w] of a text through the substitutions
    [l]: [Some w'] when, at each step, no occurrence of the pattern can
    lie partly inside and partly outside the piece, with [w'] what the
    substitutions make of the piece alone. *)
Fixpoint pass (l : list (string * string)) (w : string) : option string :=
  match l with
  | [] => Some w
  | (old, new) :: l' =>
      if clear_right old w && clear_left old w
      then pass l' (PyStr.replace w old new)
      else None
  end.





(** [old] starts somewhere in [s]. *)
Fixpoint occurs (old s : string) : bool :=
  match s with
  | EmptyString => false
  | String _ s' => String.prefix old s || occurs old s'
  end.

(** An outcome that is not a [LocalizationError]. *)
Definition foreign {A : Type} (o : outcome A) : Prop :=
  ∀ message code, o ≠ Raise (LocalizationError message code).

(** ** A lower-casing beyond 7-bit text *)

(** The 7-bit lower-casing, and the capital E with acute accent (the two
    bytes 195, 137 of its UTF-8 form) turned into the small one (195,
    169), as [str.lower] does. *)
Fixpoint accent_lower_text (s : string) : string :=
  match s with
  | EmptyString => EmptyString
  | String c s' =>
      match s' with
      | String c' s'' =>
          if Ascii.eqb c "195"%char && Ascii.eqb c' "137"%char
          then String "195"%char (String "169"%char (accent_lower_text s''))
          else String (PyStr.ascii_lower_char c) (accent_lower_text s')
      | EmptyString => String (PyStr.ascii_lower_char c) (accent_lower_text s')
      end
  end.

(** A [str.lower] that knows this one accented letter; on 7-bit text
    it is the 7-bit lower-casing, as the class asks. *)
Definition accent_lower : StrLower.
Proof.
  refine {| str_lower := accent_lower_text |}.
  induction s as [|c s IH]; [reflexivity|].
  cbn [PyStr.isascii]. intros H. apply andb_true_iff in H as [Hc Hs].
  specialize (IH Hs). cbn [accent_lower_text PyStr.ascii_lower].
  destruct s as [|c' s'].
  - reflexivity.
  - destruct (Ascii.eqb c "195"%char) eqn:E.
    + apply Ascii.eqb_eq in E as ->. discriminate.
    + cbn [andb]. by rewrite IH.
Defined.

(** ** Sample resource files *)

(** The samples below hold 7-bit text only.  On such text [str.lower]
    is the lower-casing of the letters [A] to [Z]; [seven_bit] is that
    function, and the closed examples of this file are evaluated with
    it. *)
#[global] Instance seven_bit : StrLower :=
  {| str_lower := PyStr.ascii_lower;
     str_lower_ascii := fun s _ => eq_refl |}.


(** The dictionaries of a file [app_english.ini] that holds

[[
[error_codes]
101=Error {{COLOR_RED}}number {num}{{COLOR_NONE}}
102=Done: 100% sure

[messages]
hello={{COLOR_GREEN}}Hello {name}{{COLOR_NONE}}
rate=50% off
flag
]]

    ([flag] is an option without a value). *)
Definition app_english : ConfigParser.t :=
  {| ConfigParser._sections :=
       {[ "error_codes" :=
            ({[ "101" := Some "Error {{COLOR_RED}}number {num}{{COLOR_NONE}}";
                "102" := Some "Done: 100% sure" ]}
               : gmap string (option string));
          "messages" :=
            ({[ "hello" := Some "{{COLOR_GREEN}}Hello {name}{{COLOR_NONE}}";
                "rate" := Some "50% off";
                "flag" := None ]}
               : gmap string (option string)) ]};
     ConfigParser._defaults := ∅ |}.

(** A file system with the directory [/res] and the file
    [/res/app_english.ini] in it, and nothing else. *)
Definition sample_env : Env :=
  {| path_exists := fun p =>
       String.eqb p "/res" || String.eqb p "/res/app_english.ini";
     path_abspath := fun p => p;
     parse := fun p =>
       if String.eqb p "/res/app_english.ini" then Return app_english
       else Return ConfigParser.empty |}.

(** The instance that [LocalizedResource("/res", "app")] makes there. *)
Definition sample_resource : LocalizedResource :=
  {| parser := app_english;
     resources_d := "/res";
     resources_n := "app_english.ini";
     resources_p := "/res/app_english.ini" |}.

(** ** Notions for the properties of the transform as a whole *)

(** No character of [new] is a character of [p]. *)
Fixpoint disjoint_chars (new p : string) : bool :=
  match new with
  | EmptyString => true
  | String c new' => negb (PyStr.contains_char c p) && disjoint_chars new' p
  end.

(** A table in which every replacement is non-empty, shorter than what
    it replaces, and shares no character with any pattern. *)
Definition table_ok (l : list (string * string)) : bool :=
  forallb (fun '(old, new) =>
             negb (String.eqb new "")
             && (String.length new <? String.length old)%nat
             && forallb (fun '(p, _) => disjoint_chars new p) l) l.

(** Some pattern of [_format_string] occurs in [s]: a backslash followed
    by [n], or one of the sixteen tags. *)
Definition marked (s : string) : bool :=
  existsb (fun '(old, _) => occurs old s) substitutions.

(** A character that no pattern of [_format_string] has. *)
Definition separator (c : ascii) : bool :=
  forallb (fun '(old, _) => negb (PyStr.contains_char c old)) substitutions.

(** ** Notions for the properties of the lookups *)

(** The exceptions that come out of interpolation. *)
Definition interpolation_error (e : exn) : bool :=
  match e with
  | InterpolationSyntaxError _ _
  | InterpolationMissingOptionError _ _ _
  | InterpolationDepthError _ _
  | TypeError => true
  | _ => false
  end.

(** A text with every percent sign doubled, as a resource file has to
    spell it. *)
Fixpoint escape_percent (t : string) : string :=
  match t with
  | EmptyString => EmptyString
  | String c t' =>
      if Ascii.eqb c "%"%char
      then String "%"%char (String "%"%char (escape_percent t'))
      else String c (escape_percent t')
  end.

(** A name that can stand in a reference [%(name)s]: not empty, and
    without a closing parenthesis. *)
Definition reference_name (name : string) : bool :=
  negb (String.eqb name "") && negb (PyStr.contains_char ")"%char name).

(** The instance for [/res/app_english.ini] holding the one section
    [name] with the options [options], and nothing in [DEFAULT]. *)
Definition one_section (name : string) (options : gmap string (option string))
    : LocalizedResource :=
  {| parser := {| ConfigParser._sections := {[ name := options ]};
                  ConfigParser._defaults := ∅ |};
     resources_d := "/res";
     resources_n := "app_english.ini";
     resources_p := "/res/app_english.ini" |}.

(** * Facts about strings *)

Section StringFacts.

Implicit Types (s x y u w old new : string) (c : ascii).

Lemma app_cons c x y : String c x +:+ y = String c (x +:+ y).
Proof. reflexivity. Qed.

Lemma app_nil_l s : "" +:+ s = s.
Proof. reflexivity. Qed.

Lemma app_nil_r s : s +:+ "" = s.
Proof.
  induction s as [|c s IH]; [reflexivity | by rewrite app_cons, IH].
Qed.

Lemma app_assoc x y z : (x +:+ y) +:+ z = x +:+ (y +:+ z).
Proof.
  induction x as [|c x IH]; [reflexivity | by rewrite !app_cons, IH].
Qed.

Lemma length_app x y :
  String.length (x +:+ y) = (String.length x + String.length y)%nat.
Proof.
  induction x as [|c x IH]; [reflexivity | rewrite app_cons; simpl; by rewrite IH].
Qed.

Lemma prefix_nil s : String.prefix "" s = true.
Proof. by destruct s. Qed.

Lemma prefix_cons c d u s :
  String.prefix (String c u) (String d s)
  = (if Ascii.eqb c d then String.prefix u s else false).
Proof.
  simpl. destruct (ascii_dec c d) as [->|Hne].
  - by rewrite Ascii.eqb_refl.
  - apply Ascii.eqb_neq in Hne. by rewrite Hne.
Qed.

(** A pattern longer than the text does not start it. *)
Lemma prefix_short old x :
  (String.length x < String.length old)%nat → String.prefix old x = false.
Proof.
  revert old. induction x as [|d x IH]; intros [|c old] Hlen; simpl in Hlen;
    try lia; [reflexivity|].
  rewrite prefix_cons. destruct (Ascii.eqb c d); [|reflexivity].
  apply IH. lia.
Qed.

(** Whether a pattern starts a text is decided by the first characters
    of the text, as many as the pattern has. *)
Lemma prefix_app_long old x y :
  (String.length old ≤ String.length x)%nat →
  String.prefix old (x +:+ y) = String.prefix old x.
Proof.
  revert old. induction x as [|d x IH]; intros [|c old] Hlen; simpl in Hlen;
    try lia.
  - by rewrite !prefix_nil.
  - by rewrite !prefix_nil.
  - rewrite app_cons.
    rewrite !prefix_cons. destruct (Ascii.eqb c d); [|reflexivity].
    apply IH. lia.
Qed.

(** A pattern that starts [x2 +:+ y] and is no shorter than [x2]
    starts with [x2]. *)
Lemma prefix_app_inv old x2 y :
  (String.length x2 ≤ String.length old)%nat →
  String.prefix old (x2 +:+ y) = true → String.prefix x2 old = true.
Proof.
  revert old. induction x2 as [|d x2 IH]; intros old Hlen Hp.
  - apply prefix_nil.
  - destruct old as [|c old]; simpl in Hlen; [lia|].
    rewrite app_cons in Hp.
    rewrite prefix_cons in Hp. rewrite prefix_cons.
    destruct (Ascii.eqb c d) eqn:E; [|discriminate].
    apply Ascii.eqb_eq in E as ->. rewrite Ascii.eqb_refl.
    apply IH; [lia | exact Hp].
Qed.

(** A pattern that starts [w +:+ b] starts [w] or is started by it. *)
Lemma prefix_app_cases u w b :
  String.prefix u (w +:+ b) = true →
  String.prefix u w = true ∨ String.prefix w u = true.
Proof.
  revert w. induction u as [|c u IH]; intros w Hp.
  - left. apply prefix_nil.
  - destruct w as [|d w].
    + right. reflexivity.
    + rewrite app_cons in Hp.
      rewrite prefix_cons in Hp. rewrite !prefix_cons.
      destruct (Ascii.eqb c d) eqn:E; [|discriminate].
      apply Ascii.eqb_eq in E as ->. rewrite Ascii.eqb_refl.
      by apply IH.
Qed.

Lemma clash_prefix_app u w b :
  clash u w = true → String.prefix u (w +:+ b) = false.
Proof.
  unfold clash. intros Hc.
  destruct (String.prefix u (w +:+ b)) eqn:Hp; [|reflexivity].
  apply prefix_app_cases in Hp as [H|H]; rewrite H in Hc; simpl in Hc;
    [discriminate|]. by rewrite andb_false_r in Hc.
Qed.

(** Under [clear_right_from u w], a text of fewer than [length u]
    characters followed by [w] is not started by [u]. *)
Lemma clear_right_from_prefix u w x2 b :
  clear_right_from u w = true →
  (String.length x2 < String.length u)%nat →
  String.prefix u (x2 +:+ (w +:+ b)) = false.
Proof.
  revert u. induction x2 as [|d x2 IH]; intros u Hc Hlen.
  - destruct u as [|c u]; simpl in Hlen; [lia|].
    cbn [clear_right_from clear_left clear_right] in Hc. apply andb_true_iff in Hc as [Hc _].
    rewrite app_nil_l. by apply clash_prefix_app.
  - destruct u as [|c u]; simpl in Hlen; [lia|].
    rewrite app_cons.
    rewrite prefix_cons. destruct (Ascii.eqb c d); [|reflexivity].
    cbn [clear_right_from clear_left clear_right] in Hc. apply andb_true_iff in Hc as [_ Hc].
    apply IH; [exact Hc | lia].
Qed.

Lemma clear_right_prefix old w x2 b :
  clear_right old w = true →
  x2 ≠ "" → (String.length x2 < String.length old)%nat →
  String.prefix old (x2 +:+ (w +:+ b)) = false.
Proof.
  intros Hc Hne Hlen. destruct old as [|c u]; [discriminate|].
  destruct x2 as [|d x2]; [done|]. cbn [clear_right] in Hc. simpl in Hlen.
  rewrite app_cons.
  rewrite prefix_cons. destruct (Ascii.eqb c d); [|reflexivity].
  apply clear_right_from_prefix; [exact Hc | lia].
Qed.

Lemma clear_left_suffix old w1 w2 :
  clear_left old (w1 +:+ w2) = true → clear_left old w2 = true.
Proof.
  induction w1 as [|c w1 IH]; [done|].
  rewrite app_cons. cbn [clear_left]. intros H. apply andb_true_iff in H as [_ H].
  by apply IH.
Qed.

Lemma clear_left_prefix old w1 w2 b :
  clear_left old (w1 +:+ w2) = true →
  w2 ≠ "" → (String.length w2 < String.length old)%nat →
  String.prefix old (w2 +:+ b) = false.
Proof.
  intros Hc Hne Hlen. apply clear_left_suffix in Hc.
  destruct w2 as [|c w2]; [done|].
  cbn [clear_right_from clear_left clear_right] in Hc. apply andb_true_iff in Hc as [Hc _].
  destruct (String.prefix old (String c w2 +:+ b)) eqn:Hp; [|reflexivity].
  apply prefix_app_inv in Hp; [|lia]. rewrite Hp in Hc.
  apply Nat.leb_le in Hc. lia.
Qed.

End StringFacts.

(** * Facts about [replace] *)

Section ReplaceFacts.

Implicit Types (s x y a b u w old new : string) (c : ascii).

(** The scan of [x +:+ y] is the scan of [x] followed by the scan of
    [y], when no occurrence of [old] starts in [x] and ends in [y]. *)
Lemma replace_from_app old new x : ∀ k y,
  (k ≤ String.length x)%nat →
  (∀ x1 x2, x = x1 +:+ x2 → x2 ≠ "" →
     (String.length x2 < String.length old)%nat →
     String.prefix old (x2 +:+ y) = false) →
  PyStr.replace_from old new k (x +:+ y)
  = PyStr.replace_from old new k x +:+ PyStr.replace_from old new 0 y.
Proof.
  induction x as [|c x IH]; intros k y Hk Hfree.
  - simpl in Hk. assert (k = 0%nat) as -> by lia. reflexivity.
  - assert (Hfree' : ∀ x1 x2, x = x1 +:+ x2 → x2 ≠ "" →
              (String.length x2 < String.length old)%nat →
              String.prefix old (x2 +:+ y) = false).
    { intros x1 x2 -> Hne Hlen. apply (Hfree (String c x1) x2); done. }
    rewrite app_cons. destruct k as [|k]; cbn [PyStr.replace_from].
    + assert (Hsame : String.prefix old (String c (x +:+ y))
                      = String.prefix old (String c x)).
      { destruct (le_lt_dec (String.length old) (String.length (String c x)))
          as [Hle|Hlt].
        - rewrite <- app_cons. by apply prefix_app_long.
        - rewrite (prefix_short _ _ Hlt). rewrite <- app_cons.
          apply (Hfree "" (String c x)); done. }
      rewrite Hsame. destruct (String.prefix old (String c x)) eqn:Hp.
      * rewrite app_assoc. f_equal. apply IH; [|exact Hfree'].
        destruct (le_lt_dec (String.length old) (String.length (String c x)))
          as [Hle|Hlt]; [simpl in Hle; lia|].
        rewrite (prefix_short _ _ Hlt) in Hp. discriminate.
      * rewrite app_cons. f_equal. apply IH; [lia | exact Hfree'].
    + apply IH; [simpl in Hk; lia | exact Hfree'].
Qed.

(** A piece [w] that no occurrence of [old] can straddle is replaced
    on its own, whatever stands before and behind it. *)
Lemma replace_mid old new w a b :
  clear_right old w = true → clear_left old w = true →
  PyStr.replace (a +:+ w +:+ b) old new
  = PyStr.replace a old new +:+ PyStr.replace w old new
    +:+ PyStr.replace b old new.
Proof.
  intros Hr Hl. destruct old as [|c0 u]; [discriminate|].
  unfold PyStr.replace.
  rewrite replace_from_app.
  - f_equal. rewrite replace_from_app; [reflexivity | lia |].
    intros w1 w2 -> Hne Hlen. by apply (clear_left_prefix _ w1).
  - lia.
  - intros x1 x2 _ Hne Hlen. by apply clear_right_prefix.
Qed.

(** The same through a list of substitutions. *)
Lemma replace_all_mid l : ∀ w w' a b,
  pass l w = Some w' →
  replace_all l (a +:+ w +:+ b) = replace_all l a +:+ w' +:+ replace_all l b.
Proof.
  induction l as [|[old new] l IH]; intros w w' a b Hpass.
  - simpl in Hpass. by injection Hpass as ->.
  - cbn [pass] in Hpass.
    destruct (clear_right old w && clear_left old w) eqn:Hc; [|discriminate].
    apply andb_true_iff in Hc as [Hr Hl].
    unfold replace_all. cbn [fold_left].
    rewrite (replace_mid _ _ _ _ _ Hr Hl). by apply IH.
Qed.

(** A text in which [old] starts nowhere is left as it is. *)
Lemma replace_absent old new s :
  old ≠ "" → occurs old s = false → PyStr.replace s old new = s.
Proof.
  intros Hne. destruct old as [|c0 u]; [done|]. unfold PyStr.replace.
  induction s as [|c s IH]; [reflexivity|].
  cbn [occurs PyStr.replace_from]. intros H.
  apply orb_false_iff in H as [-> H]. by rewrite IH.
Qed.

Lemma replace_all_absent l s :
  (∀ old, In old (map fst l) → old ≠ "" ∧ occurs old s = false) →
  replace_all l s = s.
Proof.
  induction l as [|[old new] l IH]; intros H; [reflexivity|].
  unfold replace_all. cbn [fold_left].
  destruct (H old) as [Hne Hocc]; [by left|].
  rewrite (replace_absent _ _ _ Hne Hocc). apply IH.
  intros old' Hin. apply H. by right.
Qed.







End ReplaceFacts.



(** * The formatting transform *)

Section FormatString.

Implicit Types (s a b w name : string).

(** [_format_string] on a [str] is the table run first to last; it
    always returns. *)
Lemma _format_string_table s :
  _format_string (VStr s) = Return (replace_all substitutions s).
Proof. reflexivity. Qed.

Lemma formatted_table s : formatted s = replace_all substitutions s.
Proof. reflexivity. Qed.

Lemma _format_string_returns s : _format_string (VStr s) = Return (formatted s).
Proof. reflexivity. Qed.

(** Anything but a [str] fails the assertion. *)
Lemma _format_string_not_str v :
  type_is v str_t = false → _format_string v = Raise AssertionError.
Proof. by destruct v. Qed.

(** A piece that passes the table is transformed on its own. *)
Lemma formatted_mid w w' a b :
  pass substitutions w = Some w' →
  formatted (a +:+ w +:+ b) = formatted a +:+ w' +:+ formatted b.
Proof. intros H. rewrite !formatted_table. by apply replace_all_mid. Qed.




End FormatString.

(** C4: the template [{{COLOR_RED}}Hello {name}{{COLOR_NONE}}] becomes
    the red escape sequence [ESC[31m], then [Hello {name}] with the
    placeholder as it was, then the reset sequence [ESC[0m]; and the
    placeholder [{name}] stays as it is between any two texts. *)
Theorem format_red_hello :
  _format_string (VStr "{{COLOR_RED}}Hello {name}{{COLOR_NONE}}")
  = Return (String "027" "[31m" +:+ "Hello {name}" +:+ String "027" "[0m")
  ∧ ∀ a b : string,
      _format_string (VStr (a +:+ "{name}" +:+ b))
      = Return (formatted a +:+ "{name}" +:+ formatted b).
Proof.
  split; [reflexivity|].
  intros a b. rewrite _format_string_returns. f_equal.
  by apply formatted_mid.
Qed.


(** * The lookups *)

Section Lookups.

Context {SL : StrLower}.

Implicit Types (self : LocalizedResource) (code message_key : value).

Ltac run :=
  unfold get_error_msg, get_msg, has_section, has_option, get, self_parser,
    self_resources_p, attr, raise, lift, mbind, M_bind, mret, M_ret; simpl.

(** What [get_error_msg] does, case by case. *)
Lemma get_error_msg_cases self code :
  type_is code str_t || type_is code int_t = true →
  get_error_msg code self =
  (match ConfigParser._sections (parser self) !! "error_codes" with
   | None =>
       Raise (LocalizationError
                ("Localization file " +:+ resources_p self
                 +:+ " is corrupt: It is missing the error_codes section.") 2)
   | Some sectiondict =>
       let d := ConfigParser.chain sectiondict
                  (ConfigParser._defaults (parser self)) in
       let option := ConfigParser.optionxform (str code) in
       match d option with
       | None =>
           Raise (LocalizationError
                    ("Localization file " +:+ resources_p self
                     +:+ " is corrupt: It is missing the error_code: "
                     +:+ str code +:+ ".") 3)
       | Some None => Raise AssertionError
       | Some (Some v) =>
           v' ← ConfigParser.before_get d "error_codes" option v;
           Return (formatted v')
       end
   end, self).
Proof.
  intros Hty. run. rewrite Hty. simpl. unfold ConfigParser.has_section.
  destruct (ConfigParser._sections (parser self) !! "error_codes")
    as [sectiondict|] eqn:Hsec; simpl; [|reflexivity].
  unfold ConfigParser.has_option, ConfigParser.get,
    ConfigParser._unify_values. simpl. rewrite Hsec.
  unfold ConfigParser.chain.
  destruct (sectiondict !! ConfigParser.optionxform (str code))
    as [[v|]|] eqn:Hopt; simpl.
  - rewrite Hsec. simpl. rewrite Hopt.
    destruct (ConfigParser.before_get _ _ _ v); reflexivity.
  - rewrite Hsec. simpl. by rewrite Hopt.
  - destruct (ConfigParser._defaults (parser self)
                !! ConfigParser.optionxform (str code))
      as [[v|]|] eqn:Hdef; simpl; try reflexivity.
    + rewrite Hsec. simpl. rewrite Hopt, Hdef.
      destruct (ConfigParser.before_get _ _ _ v); reflexivity.
    + rewrite Hsec. simpl. by rewrite Hopt, Hdef.
Qed.

(** What [get_msg] does, case by case. *)
Lemma get_msg_cases self message_key :
  type_is message_key str_t = true →
  get_msg message_key self =
  (match ConfigParser._sections (parser self) !! "messages" with
   | None =>
       Raise (LocalizationError
                ("Localization file " +:+ resources_p self
                 +:+ " is corrupt: It is missing the messages section.") 4)
   | Some sectiondict =>
       let d := ConfigParser.chain sectiondict
                  (ConfigParser._defaults (parser self)) in
       let option := ConfigParser.optionxform (str message_key) in
       match d option with
       | None =>
           Raise (LocalizationError
                    ("Localization file " +:+ resources_p self
                     +:+ " is corrupt: It is missing the message: "
                     +:+ str message_key +:+ ".") 5)
       | Some None => Raise AssertionError
       | Some (Some v) =>
           v' ← ConfigParser.before_get d "messages" option v;
           Return (formatted v')
       end
   end, self).
Proof.
  intros Hty. run. rewrite Hty. simpl. unfold ConfigParser.has_section.
  destruct (ConfigParser._sections (parser self) !! "messages")
    as [sectiondict|] eqn:Hsec; simpl; [|reflexivity].
  unfold ConfigParser.has_option, ConfigParser.get,
    ConfigParser._unify_values. simpl. rewrite Hsec.
  unfold ConfigParser.chain.
  destruct (sectiondict !! ConfigParser.optionxform (str message_key))
    as [[v|]|] eqn:Hopt; simpl.
  - rewrite Hsec. simpl. rewrite Hopt.
    destruct (ConfigParser.before_get _ _ _ v); reflexivity.
  - rewrite Hsec. simpl. by rewrite Hopt.
  - destruct (ConfigParser._defaults (parser self)
                !! ConfigParser.optionxform (str message_key))
      as [[v|]|] eqn:Hdef; simpl; try reflexivity.
    + rewrite Hsec. simpl. rewrite Hopt, Hdef.
      destruct (ConfigParser.before_get _ _ _ v); reflexivity.
    + rewrite Hsec. simpl. by rewrite Hopt, Hdef.
Qed.

(** A failed assertion leaves the instance alone as well. *)
Lemma get_error_msg_assert self code :
  type_is code str_t || type_is code int_t = false →
  get_error_msg code self = (Raise AssertionError, self).
Proof. intros Hty. run. by rewrite Hty. Qed.

Lemma get_msg_assert self message_key :
  type_is message_key str_t = false →
  get_msg message_key self = (Raise AssertionError, self).
Proof. intros Hty. run. by rewrite Hty. Qed.

(** Either way the instance comes back as it went in. *)
Lemma get_error_msg_instance self code : snd (get_error_msg code self) = self.
Proof.
  destruct (type_is code str_t || type_is code int_t) eqn:Hty.
  - by rewrite get_error_msg_cases.
  - by rewrite get_error_msg_assert.
Qed.

Lemma get_msg_instance self message_key : snd (get_msg message_key self) = self.
Proof.
  destruct (type_is message_key str_t) eqn:Hty.
  - by rewrite get_msg_cases.
  - by rewrite get_msg_assert.
Qed.

End Lookups.

(** * Interpolation *)

Section Interpolation.

Context {SL : StrLower}.

Implicit Types (map : string → option (option string))
  (option section rest v : string) (deeper : string → outcome string).

(** A value without a percent sign comes out of the loop as it is. *)
Lemma _interpolate_loop_no_percent deeper map option section rest :
  PyStr.contains_char "%"%char rest = false →
  ConfigParser._interpolate_loop deeper map option section 0 rest = Return rest.
Proof.
  induction rest as [|c rest IH]; [reflexivity|].
  cbn [PyStr.contains_char ConfigParser._interpolate_loop].
  rewrite (Ascii.eqb_sym c "%"%char).
  destruct (Ascii.eqb "%"%char c); [discriminate|].
  intros H. by rewrite (IH H).
Qed.

Lemma before_get_no_percent map section option v :
  PyStr.contains_char "%"%char v = false →
  ConfigParser.before_get map section option v = Return v.
Proof. apply _interpolate_loop_no_percent. Qed.

(** Interpolation raises its own errors, never a [LocalizationError]. *)
Lemma _interpolate_loop_foreign deeper map option section :
  (∀ v, foreign (deeper v)) →
  ∀ rest skip,
    foreign (ConfigParser._interpolate_loop deeper map option section skip rest).
Proof.
  intros Hdeep. induction rest as [|c rest IH]; intros skip message code;
    [done|].
  cbn [ConfigParser._interpolate_loop]. destruct skip as [|k]; [|apply IH].
  destruct (Ascii.eqb c "%"%char).
  - destruct rest as [|c1 after]; [done|].
    destruct (Ascii.eqb c1 "%"%char).
    + pose proof (IH 1%nat message code) as H1.
      destruct (ConfigParser._interpolate_loop deeper map option section 1
                  (String c1 after)); unfold mbind, outcome_bind; congruence.
    + destruct (Ascii.eqb c1 "("%char); [|done].
      destruct (ConfigParser.keycre after) as [name|]; [|done].
      destruct (map (ConfigParser.optionxform name)) as [[v|]|]; [|done|done].
      pose proof (IH (String.length name + 3)%nat message code) as H1.
      pose proof (Hdeep v message code) as H2.
      destruct (ConfigParser._interpolate_loop deeper map option section
                  (String.length name + 3) (String c1 after));
        destruct (PyStr.contains_char "%"%char v);
        try destruct (deeper v);
        unfold mbind, outcome_bind; congruence.
  - pose proof (IH 0%nat message code) as H1.
    destruct (ConfigParser._interpolate_loop deeper map option section 0 rest);
      unfold mbind, outcome_bind; congruence.
Qed.

Lemma _interpolate_some_foreign fuel map option section rest :
  foreign (ConfigParser._interpolate_some fuel map option section rest).
Proof.
  revert rest. induction fuel as [|fuel IH]; intros rest; [done|].
  cbn [ConfigParser._interpolate_some].
  by apply _interpolate_loop_foreign.
Qed.

Lemma before_get_foreign map section option v :
  foreign (ConfigParser.before_get map section option v).
Proof. apply _interpolate_some_foreign. Qed.




(** The numeral of an integer has no capital letters. *)
Lemma lower_digits d :
  PyStr.ascii_lower (NilEmpty.string_of_uint d) = NilEmpty.string_of_uint d.
Proof.
  induction d as [|d IH|d IH|d IH|d IH|d IH|d IH|d IH|d IH|d IH|d IH];
    cbn [NilEmpty.string_of_uint PyStr.ascii_lower];
    first [reflexivity | rewrite IH; reflexivity].
Qed.

Lemma lower_string_of_uint d :
  PyStr.ascii_lower (NilZero.string_of_uint d) = NilZero.string_of_uint d.
Proof. destruct d; first [reflexivity | apply lower_digits]. Qed.

Lemma ascii_lower_of_int z :
  PyStr.ascii_lower (PyStr.of_int z) = PyStr.of_int z.
Proof.
  unfold PyStr.of_int, NilZero.string_of_int.
  destruct (Z.to_int z) as [d|d]; [apply lower_string_of_uint|].
  cbn [PyStr.ascii_lower]. rewrite lower_string_of_uint. reflexivity.
Qed.

Lemma isascii_digits d : PyStr.isascii (NilEmpty.string_of_uint d) = true.
Proof.
  induction d as [|d IH|d IH|d IH|d IH|d IH|d IH|d IH|d IH|d IH|d IH];
    cbn [NilEmpty.string_of_uint PyStr.isascii];
    first [reflexivity | rewrite IH; reflexivity].
Qed.

Lemma isascii_of_int z : PyStr.isascii (PyStr.of_int z) = true.
Proof.
  unfold PyStr.of_int, NilZero.string_of_int.
  assert (Hu : ∀ d, PyStr.isascii (NilZero.string_of_uint d) = true).
  { intros d. destruct d; first [reflexivity | apply isascii_digits]. }
  destruct (Z.to_int z) as [d|d]; [apply Hu|].
  cbn [PyStr.isascii]. rewrite Hu. reflexivity.
Qed.

(** So [str.lower] leaves the numeral of an integer as it is. *)
Lemma lower_of_int z : str_lower (PyStr.of_int z) = PyStr.of_int z.
Proof.
  rewrite str_lower_ascii by apply isascii_of_int. apply ascii_lower_of_int.
Qed.

End Interpolation.

(** * Construction *)

Section Construction.

Implicit Types (env : Env) (d prefix : string) (language : option string).

(** Reading a file into a parser that holds nothing yet gives what the
    file holds. *)
Lemma update_empty parsed :
  ConfigParser.update parsed ConfigParser.empty = parsed.
Proof.
  destruct parsed as [sections defaults].
  unfold ConfigParser.update, ConfigParser.empty. simpl. f_equal.
  - apply (right_id ∅ (union_with _)).
  - apply (right_id ∅ (∪)).
Qed.

(** What the constructor does, case by case. *)
Lemma new_cases env d prefix language :
  new env (VStr d) prefix language =
  if negb (path_exists env d) then
    Raise (LocalizationError
             ("Resources directory " +:+ d +:+ " does not exist.") 0)
  else if negb (path_exists env
                  (path_join d (prefix +:+ "_" +:+ default "english" language
                                +:+ ".ini"))) then
    Raise (LocalizationError
             ("Cannot locate resource file: "
              +:+ path_abspath env
                    (path_join d (prefix +:+ "_" +:+ default "english" language
                                  +:+ ".ini"))) 1)
  else
    match parse env (path_join d (prefix +:+ "_" +:+ default "english" language
                                  +:+ ".ini")) with
    | Return parsed =>
        Return {| parser := parsed;
                  resources_d := d;
                  resources_n := prefix +:+ "_" +:+ default "english" language
                                 +:+ ".ini";
                  resources_p :=
                    path_join d (prefix +:+ "_" +:+ default "english" language
                                 +:+ ".ini") |}
    | Raise e => Raise e
    end.
Proof.
  unfold new, __init__, _read_resources, read, set_parser, set_resources_d,
    set_resources_n, set_resources_p, self_parser, self_resources_d,
    self_resources_n, self_resources_p, attr, raise, lift, mbind, M_bind.
  simpl. destruct (path_exists env d); simpl; [|reflexivity].
  destruct (path_exists env _); simpl; [|reflexivity].
  destruct (parse env _) as [parsed|e]; simpl; [|reflexivity].
  by rewrite update_empty.
Qed.

End Construction.

(** C3: constructing a loader fails with a [LocalizationError] of code 0
    when the resources directory does not exist; with the directory
    there and the resolved file missing, it fails with code 1 and the
    message [Cannot locate resource file: ] followed by the absolute
    path of the resolved file; with the file there and well-formed, it
    succeeds, and the instance holds what the file holds. *)
Theorem construction_outcomes :
  ∀ (env : Env) (d prefix : string) (language : option string),
    (path_exists env d = false →
     new env (VStr d) prefix language
     = Raise (LocalizationError
                ("Resources directory " +:+ d +:+ " does not exist.") 0))
    ∧ (path_exists env d = true →
       path_exists env
         (path_join d (prefix +:+ "_" +:+ default "english" language +:+ ".ini"))
       = false →
       new env (VStr d) prefix language
       = Raise (LocalizationError
                  ("Cannot locate resource file: "
                   +:+ path_abspath env
                         (path_join d (prefix +:+ "_" +:+ default "english" language
                                       +:+ ".ini"))) 1))
    ∧ (path_exists env d = true →
       path_exists env
         (path_join d (prefix +:+ "_" +:+ default "english" language +:+ ".ini"))
       = true →
       ∀ parsed,
         parse env
           (path_join d (prefix +:+ "_" +:+ default "english" language +:+ ".ini"))
         = Return parsed →
         ∃ self, new env (VStr d) prefix language = Return self
                 ∧ parser self = parsed).
Proof.
  intros env d prefix language. rewrite new_cases. repeat split.
  - by intros ->.
  - by intros -> ->.
  - intros -> -> parsed ->. simpl. eauto.
Qed.




(** C9: a lookup, whether it returns or raises, leaves the instance as
    it was: the parser's dictionaries and the three path attributes. *)
Theorem lookups_leave_instance {SL : StrLower} :
  ∀ (self : LocalizedResource) (code message_key : value),
    snd (get_error_msg code self) = self
    ∧ snd (get_msg message_key self) = self.
Proof.
  intros self code message_key. split.
  - apply get_error_msg_instance.
  - apply get_msg_instance.
Qed.

(** C10: [get_error_msg] on an integer and on its decimal numeral do the
    same: the same string returned or the same exception raised. *)
Theorem get_error_msg_int_str {SL : StrLower} :
  ∀ (self : LocalizedResource) (c : Z),
    fst (get_error_msg (VInt c) self)
    = fst (get_error_msg (VStr (PyStr.of_int c)) self).
Proof. reflexivity. Qed.

Example of_int_examples :
  PyStr.of_int 101 = "101" ∧ PyStr.of_int 0 = "0" ∧ PyStr.of_int (-7) = "-7".
Proof. repeat split. Qed.

(** C8: the constructor resolves one path,
    [join(resources_d, prefix + "_" + language + ".ini")], with
    [language] taken as [english] when the caller leaves it out; no
    other path decides what the constructor does; and no lookup changes
    the path of the instance. *)
Theorem resolved_path_bound {SL : StrLower} :
  (∀ (env : Env) (d prefix : string) (language : option string)
     (self : LocalizedResource),
     new env (VStr d) prefix language = Return self →
     resources_p self
     = path_join d (prefix +:+ "_" +:+ default "english" language +:+ ".ini")
     ∧ (language = None →
        resources_p self = path_join d (prefix +:+ "_english.ini"))
     ∧ ∀ code message_key,
         resources_p (snd (get_error_msg code self)) = resources_p self
         ∧ resources_p (snd (get_msg message_key self)) = resources_p self)
  ∧ (∀ (env env' : Env) (d prefix : string) (language : option string),
       path_exists env d = path_exists env' d →
       path_exists env
         (path_join d (prefix +:+ "_" +:+ default "english" language +:+ ".ini"))
       = path_exists env'
           (path_join d (prefix +:+ "_" +:+ default "english" language +:+ ".ini")) →
       path_abspath env
         (path_join d (prefix +:+ "_" +:+ default "english" language +:+ ".ini"))
       = path_abspath env'
           (path_join d (prefix +:+ "_" +:+ default "english" language +:+ ".ini")) →
       parse env
         (path_join d (prefix +:+ "_" +:+ default "english" language +:+ ".ini"))
       = parse env'
           (path_join d (prefix +:+ "_" +:+ default "english" language +:+ ".ini")) →
       new env (VStr d) prefix language = new env' (VStr d) prefix language).
Proof.
  split.
  - intros env d prefix language self Hnew.
    assert (Hp : resources_p self
                 = path_join d (prefix +:+ "_" +:+ default "english" language
                                +:+ ".ini")).
    { rewrite new_cases in Hnew.
      destruct (negb (path_exists env d)); [discriminate|].
      destruct (negb (path_exists env _)); [discriminate|].
      destruct (parse env _); [|discriminate].
      by injection Hnew as <-. }
    split; [exact Hp|]. split.
    + intros ->. exact Hp.
    + intros code message_key.
      by rewrite get_error_msg_instance, get_msg_instance.
  - intros env env' d prefix language Hd Hp Ha Hparse.
    rewrite !new_cases. by rewrite Hd, Hp, Ha, Hparse.
Qed.

(** The path rule at work in the sample file system. *)
Lemma resolved_path_bound_witness :
  resources_p sample_resource = path_join "/res" ("app" +:+ "_english.ini").
Proof.
  apply (proj1 resolved_path_bound sample_env "/res" "app" None sample_resource);
    reflexivity.
Defined.

(** C1, as the code has it.  For a code that is a [str] or an [int]:
    [get_error_msg] raises [LocalizationError] with code 2 and the message
    ending [missing the error_codes section.] exactly when the parser
    has no [error_codes] section; it raises code 3 with the message
    ending [missing the error_code: <code>.] exactly when the section is
    there and [str(code).lower()] is an option neither of the section
    nor of [DEFAULT]; and when the option holds a string whose
    interpolation gives [v'] (the string itself when it has no percent
    sign), it returns the formatting transform of [v'], and substitutes
    no [{...}] placeholder.  For an [int] code lower-casing changes
    nothing.  [str.lower] is any function that is the 7-bit
    lower-casing on 7-bit text, as Python's is. *)
Theorem get_error_msg_contract {SL : StrLower} :
  ∀ (self : LocalizedResource) (code : value),
    type_is code str_t || type_is code int_t = true →
    ((∃ message,
        fst (get_error_msg code self) = Raise (LocalizationError message 2))
     ↔ ConfigParser._sections (parser self) !! "error_codes" = None)
    ∧ (ConfigParser._sections (parser self) !! "error_codes" = None →
       fst (get_error_msg code self)
       = Raise (LocalizationError
                  ("Localization file " +:+ resources_p self
                   +:+ " is corrupt: It is missing the error_codes section.") 2))
    ∧ ((∃ message,
          fst (get_error_msg code self) = Raise (LocalizationError message 3))
       ↔ ∃ sectiondict,
           ConfigParser._sections (parser self) !! "error_codes"
           = Some sectiondict
           ∧ sectiondict !! str_lower (str code) = None
           ∧ ConfigParser._defaults (parser self) !! str_lower (str code)
             = None)
    ∧ (∀ sectiondict,
         ConfigParser._sections (parser self) !! "error_codes"
         = Some sectiondict →
         sectiondict !! str_lower (str code) = None →
         ConfigParser._defaults (parser self) !! str_lower (str code) = None →
         fst (get_error_msg code self)
         = Raise (LocalizationError
                    ("Localization file " +:+ resources_p self
                     +:+ " is corrupt: It is missing the error_code: "
                     +:+ str code +:+ ".") 3))
    ∧ (∀ sectiondict v v',
         ConfigParser._sections (parser self) !! "error_codes"
         = Some sectiondict →
         ConfigParser.chain sectiondict (ConfigParser._defaults (parser self))
           (str_lower (str code)) = Some (Some v) →
         ConfigParser.before_get
           (ConfigParser.chain sectiondict (ConfigParser._defaults (parser self)))
           "error_codes" (str_lower (str code)) v = Return v' →
         fst (get_error_msg code self) = _format_string (VStr v'))
    ∧ (∀ sectiondict v,
         ConfigParser._sections (parser self) !! "error_codes"
         = Some sectiondict →
         ConfigParser.chain sectiondict (ConfigParser._defaults (parser self))
           (str_lower (str code)) = Some (Some v) →
         PyStr.contains_char "%" v = false →
         fst (get_error_msg code self) = _format_string (VStr v))
    ∧ (∀ z, code = VInt z → str_lower (str code) = str code).
Proof.
  intros self code Hty. rewrite (get_error_msg_cases _ _ Hty).
  cbn [fst]. unfold ConfigParser.optionxform.
  destruct (ConfigParser._sections (parser self) !! "error_codes")
    as [sectiondict|] eqn:Hsec.
  - cbn zeta. split; [|split; [|split; [|split; [|split; [|split]]]]].
    + split; [|done]. intros [message H]. exfalso. revert H.
      destruct (ConfigParser.chain _ _ _) as [[v|]|]; [|done|done].
      pose proof (before_get_foreign
                    (ConfigParser.chain sectiondict
                       (ConfigParser._defaults (parser self)))
                    "error_codes" (str_lower (str code)) v message 2%Z) as Hf.
      destruct (ConfigParser.before_get _ _ _ v); unfold mbind, outcome_bind;
        congruence.
    + done.
    + split.
      * intros [message H]. exists sectiondict. split; [done|]. revert H.
        unfold ConfigParser.chain at 1.
        destruct (sectiondict !! str_lower (str code)) as [[v|]|] eqn:Hopt.
        -- intros H. exfalso. revert H.
           pose proof (before_get_foreign
                         (ConfigParser.chain sectiondict
                            (ConfigParser._defaults (parser self)))
                         "error_codes" (str_lower (str code)) v message 3%Z) as Hf.
           destruct (ConfigParser.before_get _ _ _ v);
             unfold mbind, outcome_bind; congruence.
        -- done.
        -- destruct (ConfigParser._defaults (parser self)
                       !! str_lower (str code)) as [[v|]|] eqn:Hdef;
             [|done|done].
           intros H. exfalso. revert H.
           pose proof (before_get_foreign
                         (ConfigParser.chain sectiondict
                            (ConfigParser._defaults (parser self)))
                         "error_codes" (str_lower (str code)) v message 3%Z) as Hf.
           destruct (ConfigParser.before_get _ _ _ v);
             unfold mbind, outcome_bind; congruence.
      * intros (sd & [= <-] & Hopt & Hdef).
        unfold ConfigParser.chain at 1. rewrite Hopt, Hdef. eauto.
    + intros sd [= <-] Hopt Hdef.
      unfold ConfigParser.chain at 1. by rewrite Hopt, Hdef.
    + intros sd v v' [= <-] Hch Hget. by rewrite Hch, Hget.
    + intros sd v [= <-] Hch Hno. rewrite Hch.
      by rewrite before_get_no_percent.
    + intros z ->. apply lower_of_int.
  - split; [|split; [|split; [|split; [|split; [|split]]]]]; try done.
    + split; [intros _; reflexivity | intros _; eauto].
    + split; [intros [message H]; discriminate | by intros (sd & ? & _)].
    + intros z ->. apply lower_of_int.
Qed.

(** The contract at work on the sample instance: code 101 is found and
    formatted, and code 7 is reported missing. *)
Lemma get_error_msg_contract_witness :
  fst (get_error_msg (VInt 101) sample_resource)
  = _format_string (VStr "Error {{COLOR_RED}}number {num}{{COLOR_NONE}}")
  ∧ fst (get_error_msg (VInt 7) sample_resource)
    = Raise (LocalizationError
               "Localization file /res/app_english.ini is corrupt: It is missing the error_code: 7."
               3).
Proof.
  pose proof (get_error_msg_contract sample_resource (VInt 101) eq_refl)
    as (_ & _ & _ & _ & _ & H101 & _).
  pose proof (get_error_msg_contract sample_resource (VInt 7) eq_refl)
    as (_ & _ & _ & H7 & _).
  split.
  - eapply H101; reflexivity.
  - eapply H7; reflexivity.
Defined.

(** C1 as the specification words it fails on the sample instance: the
    section is there and holds [102] with the template
    [Done: 100% sure], on which the formatting transform changes
    nothing, yet the lookup raises an interpolation error instead of
    returning the template. *)
Lemma get_error_msg_percent_counterexample :
  ConfigParser.has_section (parser sample_resource) "error_codes" = true
  ∧ ConfigParser._sections (parser sample_resource) !! "error_codes"
      ≫= (fun sectiondict => sectiondict !! "102")
    = Some (Some "Done: 100% sure")
  ∧ _format_string (VStr "Done: 100% sure") = Return "Done: 100% sure"
  ∧ fst (get_error_msg (VInt 102) sample_resource)
    = Raise (InterpolationSyntaxError "102" "error_codes")
  ∧ fst (get_error_msg (VInt 102) sample_resource)
    ≠ Return "Done: 100% sure".
Proof. repeat split; discriminate. Qed.

(** The same under every lower-casing, Python's among them: the key
    [102] is a numeral, which [str.lower] leaves as it is. *)
Lemma get_error_msg_percent_any_lower {SL : StrLower} :
  fst (get_error_msg (VInt 102) sample_resource)
  = Raise (InterpolationSyntaxError "102" "error_codes").
Proof.
  rewrite get_error_msg_cases by reflexivity. cbn [fst].
  unfold ConfigParser.optionxform.
  change (str (VInt 102)) with (PyStr.of_int 102). rewrite lower_of_int.
  reflexivity.
Qed.




(** The same under every lower-casing, Python's among them: the key
    [rate] is 7-bit text in lower case. *)
Lemma get_msg_percent_any_lower {SL : StrLower} :
  fst (get_msg (VStr "rate") sample_resource)
  = Raise (InterpolationSyntaxError "rate" "messages").
Proof.
  rewrite get_msg_cases by reflexivity. cbn [fst].
  unfold ConfigParser.optionxform. cbn [str].
  rewrite (str_lower_ascii "rate") by reflexivity.
  reflexivity.
Qed.

(** The constructor at work in the sample file system: no directory
    [/nowhere]; no file for [french]; and the file for [english]. *)
Lemma construction_outcomes_witness :
  new sample_env (VStr "/nowhere") "app" None
  = Raise (LocalizationError "Resources directory /nowhere does not exist." 0)
  ∧ new sample_env (VStr "/res") "app" (Some "french")
    = Raise (LocalizationError
               "Cannot locate resource file: /res/app_french.ini" 1)
  ∧ ∃ self, new sample_env (VStr "/res") "app" None = Return self
            ∧ parser self = app_english.
Proof.
  split; [|split].
  - apply (proj1 (construction_outcomes sample_env "/nowhere" "app" None)).
    reflexivity.
  - apply (proj1 (proj2 (construction_outcomes sample_env "/res" "app"
                           (Some "french")))); reflexivity.
  - apply (proj2 (proj2 (construction_outcomes sample_env "/res" "app" None)));
      reflexivity.
Defined.

(** C7, as the code has it: with [app_english.ini] holding
    [101=Error {{COLOR_RED}}number {num}{{COLOR_NONE}}] in its
    [error_codes] section, a loader made for the prefix [app] reads that
    file, and [get_error_msg(101)] returns [Error ], the red escape
    sequence, [number {num}] and the reset sequence: each tag is replaced
    where it stands and nothing else moves. *)
Theorem get_error_msg_101 {SL : StrLower} :
  ∀ (env : Env) (d : string) (self : LocalizedResource)
    (sectiondict : gmap string (option string)),
    new env (VStr d) "app" None = Return self →
    ConfigParser._sections (parser self) !! "error_codes" = Some sectiondict →
    sectiondict !! "101"
    = Some (Some "Error {{COLOR_RED}}number {num}{{COLOR_NONE}}") →
    resources_n self = "app_english.ini"
    ∧ fst (get_error_msg (VInt 101) self)
      = Return ("Error " +:+ String "027" "[31m" +:+ "number {num}"
                +:+ String "027" "[0m").
Proof.
  intros env d self sectiondict Hnew Hsec Hopt. split.
  - rewrite new_cases in Hnew.
    destruct (negb (path_exists env d)); [discriminate|].
    destruct (negb (path_exists env _)); [discriminate|].
    destruct (parse env _); [|discriminate].
    by injection Hnew as <-.
  - rewrite get_error_msg_cases by reflexivity. cbn [fst].
    rewrite Hsec. cbn zeta. unfold ConfigParser.chain at 1.
    unfold ConfigParser.optionxform.
    change (str (VInt 101)) with (PyStr.of_int 101). rewrite lower_of_int.
    change (PyStr.of_int 101) with "101".
    rewrite Hopt. by rewrite before_get_no_percent.
Qed.

(** The same on the sample file system. *)
Lemma get_error_msg_101_witness :
  fst (get_error_msg (VInt 101) sample_resource)
  = Return ("Error " +:+ String "027" "[31m" +:+ "number {num}"
            +:+ String "027" "[0m").
Proof.
  apply (get_error_msg_101 sample_env "/res" sample_resource
           {[ "101" := Some "Error {{COLOR_RED}}number {num}{{COLOR_NONE}}";
              "102" := Some "Done: 100% sure" ]});
    reflexivity.
Defined.

(** C7 as the specification words it fails: on the instance read from
    such a file, [get_error_msg(101)] does not return the red escape
    sequence followed by [Error {num}] and the reset sequence. *)
Lemma get_error_msg_101_counterexample :
  new sample_env (VStr "/res") "app" None = Return sample_resource
  ∧ ConfigParser._sections (parser sample_resource) !! "error_codes"
      ≫= (fun sectiondict => sectiondict !! "101")
    = Some (Some "Error {{COLOR_RED}}number {num}{{COLOR_NONE}}")
  ∧ fst (get_error_msg (VInt 101) sample_resource)
    = Return ("Error " +:+ String "027" "[31m" +:+ "number {num}"
              +:+ String "027" "[0m")
  ∧ fst (get_error_msg (VInt 101) sample_resource)
    ≠ Return (String "027" "[31m" +:+ "Error {num}" +:+ String "027" "[0m").
Proof. repeat split; discriminate. Qed.

(** An option without a value is found by [has_option], comes out of
    [get] as [None], and fails the assertion of [_format_string]. *)
Example get_msg_no_value :
  fst (get_msg (VStr "flag") sample_resource) = Raise AssertionError.
Proof. reflexivity. Qed.

(** Options are found whatever the case of the key, and those of the
    [DEFAULT] section are found in every section. *)
Example get_error_msg_default_section :
  fst (get_error_msg (VStr "E1")
         {| parser := {| ConfigParser._sections := {[ "error_codes" := ∅ ]};
                         ConfigParser._defaults := {[ "e1" := Some "one" ]} |};
            resources_d := "/res"; resources_n := "app_english.ini";
            resources_p := "/res/app_english.ini" |})
  = Return "one".
Proof. reflexivity. Qed.

(** * Further properties of [replace] *)

Section ReplaceMore.

Implicit Types (s t p old new : string) (c : ascii).

Lemma occurs_app_new new p t :
  p ≠ "" → disjoint_chars new p = true → occurs p t = false →
  occurs p (new +:+ t) = false.
Proof.
  intros Hp. induction new as [|c new IH]; [done|].
  cbn [disjoint_chars]. intros Hd Ht.
  apply andb_true_iff in Hd as [Hc Hd]. apply negb_true_iff in Hc.
  rewrite app_cons. cbn [occurs]. rewrite (IH Hd Ht), orb_false_r.
  destruct p as [|p0 p]; [done|]. rewrite prefix_cons.
  cbn [PyStr.contains_char] in Hc. rewrite (Ascii.eqb_sym p0 c).
  by destruct (Ascii.eqb c p0).
Qed.

Lemma disjoint_chars_tail new (p0 : ascii) p :
  disjoint_chars new (String p0 p) = true → disjoint_chars new p = true.
Proof.
  induction new as [|n0 new IH]; [done|].
  cbn [disjoint_chars PyStr.contains_char].
  destruct (Ascii.eqb n0 p0); [done|].
  intros H. apply andb_true_iff in H as [-> H]. by rewrite IH.
Qed.

(** A pattern that starts the output, and shares no character with the
    replacement, started the input. *)
Lemma prefix_replace_from old new p : ∀ s,
  new ≠ "" → disjoint_chars new p = true →
  String.prefix p (PyStr.replace_from old new 0 s) = true →
  String.prefix p s = true.
Proof.
  intros s Hnew Hd. revert p Hd.
  induction s as [|c s IH]; intros p Hd; [done|].
  destruct p as [|p0 p]; [done|].
  cbn [PyStr.replace_from]. destruct (String.prefix old (String c s)).
  - destruct new as [|n0 new]; [done|]. rewrite app_cons, prefix_cons.
    cbn [disjoint_chars PyStr.contains_char] in Hd.
    rewrite (Ascii.eqb_sym p0 n0). by destruct (Ascii.eqb n0 p0).
  - rewrite !prefix_cons. destruct (Ascii.eqb p0 c); [|done].
    apply IH. by apply disjoint_chars_tail in Hd.
Qed.

(** A pattern absent from the input, and sharing no character with the
    replacement, is absent from the output. *)
Lemma occurs_replace_from old new p : ∀ s k,
  p ≠ "" → new ≠ "" → disjoint_chars new p = true →
  occurs p s = false → occurs p (PyStr.replace_from old new k s) = false.
Proof.
  intros s k Hp Hnew Hd. revert k.
  induction s as [|c s IH]; intros k Hocc; [done|].
  cbn [occurs] in Hocc. apply orb_false_iff in Hocc as [Hpre Hocc].
  destruct k as [|k]; [|by apply IH].
  destruct (String.prefix p (PyStr.replace_from old new 0 (String c s))) eqn:E.
  { apply prefix_replace_from in E; [congruence | done | done]. }
  revert E. cbn [PyStr.replace_from].
  destruct (String.prefix old (String c s)); intros E.
  - apply occurs_app_new; [done | done | by apply IH].
  - cbn [occurs]. rewrite E. by apply IH.
Qed.

(** The pattern replaced is absent from the output, when it shares no
    character with the replacement. *)
Lemma occurs_replace_from_old old new : ∀ s k,
  old ≠ "" → new ≠ "" → disjoint_chars new old = true →
  occurs old (PyStr.replace_from old new k s) = false.
Proof.
  intros s k Hold Hnew Hd. revert k.
  induction s as [|c s IH]; intros k; [done|].
  destruct k as [|k]; [|by apply IH].
  destruct (String.prefix old (PyStr.replace_from old new 0 (String c s)))
    eqn:E.
  - pose proof (prefix_replace_from _ _ _ _ Hnew Hd E) as Hpre.
    revert E. cbn [PyStr.replace_from]. rewrite Hpre.
    destruct new as [|n0 new]; [done|]. destruct old as [|o0 old]; [done|].
    rewrite app_cons, prefix_cons.
    cbn [disjoint_chars PyStr.contains_char] in Hd.
    rewrite (Ascii.eqb_sym o0 n0). by destruct (Ascii.eqb n0 o0).
  - revert E. cbn [PyStr.replace_from].
    destruct (String.prefix old (String c s)); intros E.
    + apply occurs_app_new; [done | done | apply IH].
    + cbn [occurs]. rewrite E. apply IH.
Qed.

(** Lengths: a replacement no longer than the pattern never lengthens
    the text, and a shorter one shortens every text the pattern occurs
    in. *)
Lemma length_replace_from old new : ∀ s k,
  old ≠ "" → (String.length new ≤ String.length old)%nat →
  (String.length (PyStr.replace_from old new k s) ≤ String.length s - k)%nat.
Proof.
  intros s k Hold Hlen. revert k.
  induction s as [|c s IH]; intros k; [simpl; lia|].
  destruct k as [|k]; cbn [PyStr.replace_from].
  - destruct (String.prefix old (String c s)) eqn:E.
    + assert (String.length old ≤ String.length (String c s))%nat.
      { destruct (le_lt_dec (String.length old) (String.length (String c s)));
          [done|]. rewrite prefix_short in E; [discriminate | done]. }
      assert (0 < String.length old)%nat by (destruct old; [done | simpl; lia]).
      rewrite length_app. specialize (IH (String.length old - 1)%nat).
      simpl in *. lia.
    + specialize (IH 0%nat). simpl in *. lia.
  - specialize (IH k). simpl in *. lia.
Qed.

Lemma length_replace_from_lt old new : ∀ s,
  old ≠ "" → (String.length new < String.length old)%nat →
  occurs old s = true →
  (String.length (PyStr.replace_from old new 0 s) < String.length s)%nat.
Proof.
  intros s Hold Hlen.
  induction s as [|c s IH]; intros Hocc; [done|].
  cbn [PyStr.replace_from]. cbn [occurs] in Hocc.
  destruct (String.prefix old (String c s)) eqn:E.
  - assert (String.length old ≤ String.length (String c s))%nat.
    { destruct (le_lt_dec (String.length old) (String.length (String c s)));
        [done|]. rewrite prefix_short in E; [discriminate | done]. }
    pose proof (length_replace_from old new s (String.length old - 1) Hold
                  ltac:(lia)).
    rewrite length_app. simpl in *. lia.
  - simpl in Hocc. specialize (IH Hocc). simpl. lia.
Qed.

End ReplaceMore.

(** * The transform as a whole *)

Section TransformWhole.

Implicit Types (s t p old new : string) (l : list (string * string)).

Lemma replace_nonempty s old new :
  old ≠ "" → PyStr.replace s old new = PyStr.replace_from old new 0 s.
Proof. by destruct old. Qed.

(** What [table_ok] says of one row. *)
Lemma table_ok_row l old new :
  table_ok l = true → In (old, new) l →
  old ≠ "" ∧ new ≠ ""
  ∧ (String.length new < String.length old)%nat
  ∧ ∀ p new', In (p, new') l → disjoint_chars new p = true.
Proof.
  unfold table_ok. rewrite forallb_forall. intros Hok Hin.
  specialize (Hok _ Hin). cbn beta iota in Hok.
  apply andb_true_iff in Hok as [Hok Hdis].
  apply andb_true_iff in Hok as [Hnew Hlen].
  apply negb_true_iff, String.eqb_neq in Hnew. apply Nat.ltb_lt in Hlen.
  repeat split; [|done|done|].
  - intros ->. simpl in Hlen. lia.
  - intros p new' Hp. rewrite forallb_forall in Hdis.
    by specialize (Hdis _ Hp).
Qed.

(** A pattern absent from a text stays absent through rows whose
    replacements share no character with it. *)
Lemma replace_all_preserves l p : ∀ s,
  (∀ old new, In (old, new) l →
     old ≠ "" ∧ new ≠ "" ∧ disjoint_chars new p = true) →
  p ≠ "" → occurs p s = false → occurs p (replace_all l s) = false.
Proof.
  induction l as [|[old new] l IH]; intros s Hrows Hp Hocc; [done|].
  unfold replace_all. cbn [fold_left].
  destruct (Hrows old new) as (Hold & Hnew & Hd); [by left|].
  apply IH; [|done|].
  - intros old' new' Hin. apply Hrows. by right.
  - rewrite replace_nonempty by done. by apply occurs_replace_from.
Qed.

(** After the table has run, none of its patterns is left. *)
Lemma replace_all_clean (whole : list (string * string)) l : ∀ s,
  table_ok whole = true → (∀ row, In row l → In row whole) →
  ∀ p new', In (p, new') l → occurs p (replace_all l s) = false.
Proof.
  intros s Hok. revert s.
  induction l as [|[old new] l IH]; intros s Hsub p new' Hin; [done|].
  unfold replace_all. cbn [fold_left].
  assert (Hrest : ∀ old' new'', In (old', new'') l →
            old' ≠ "" ∧ new'' ≠ "" ∧ ∀ q q', In (q, q') whole →
              disjoint_chars new'' q = true).
  { intros old' new'' Hin'.
    destruct (table_ok_row whole old' new'' Hok) as (? & ? & _ & ?);
      [apply Hsub; by right | done]. }
  destruct Hin as [[= -> ->]|Hin].
  - destruct (table_ok_row whole p new' Hok) as (Hp & Hnew & _ & Hd);
      [apply Hsub; by left|].
    apply replace_all_preserves; [|done|].
    + intros old' new'' Hin'. destruct (Hrest _ _ Hin') as (? & ? & Hq).
      repeat split; [done | done |]. apply (Hq p new'). apply Hsub. by left.
    + rewrite replace_nonempty by done.
      apply occurs_replace_from_old; [done | done |].
      apply (Hd p new'). apply Hsub. by left.
  - apply (IH _ (fun row Hrow => Hsub row (or_intror Hrow)) p new' Hin).
Qed.

(** Lengths through the table. *)
Lemma length_replace_all whole l : ∀ s,
  table_ok whole = true → (∀ row, In row l → In row whole) →
  (String.length (replace_all l s) ≤ String.length s)%nat
  ∧ (existsb (fun '(old, _) => occurs old s) l = true →
     (String.length (replace_all l s) < String.length s)%nat).
Proof.
  intros s Hok. revert s.
  induction l as [|[old new] l IH]; intros s Hsub; [split; [done|done]|].
  unfold replace_all. cbn [fold_left existsb].
  destruct (table_ok_row whole old new Hok) as (Hold & Hnew & Hlen & _);
    [apply Hsub; by left|].
  destruct (IH (PyStr.replace s old new)
              (fun row Hrow => Hsub row (or_intror Hrow))) as [Hle Hlt].
  pose proof (length_replace_from old new s 0 Hold ltac:(lia)) as Hstep.
  rewrite <- (replace_nonempty s old new Hold) in Hstep.
  unfold replace_all in Hle, Hlt. split; [lia|].
  destruct (occurs old s) eqn:Hocc.
  - intros _.
    pose proof (length_replace_from_lt old new s Hold Hlen Hocc) as Hs.
    rewrite <- (replace_nonempty s old new Hold) in Hs. lia.
  - simpl. rewrite (replace_absent _ _ _ Hold Hocc) in *. exact Hlt.
Qed.

Lemma table_ok_substitutions : table_ok substitutions = true.
Proof. vm_compute. reflexivity. Qed.

Lemma formatted_clean s : marked (formatted s) = false.
Proof.
  unfold marked. apply not_true_is_false. intros H.
  apply existsb_exists in H as ([old new] & Hin & Hocc).
  rewrite formatted_table in Hocc.
  rewrite (replace_all_clean substitutions substitutions s
             table_ok_substitutions (fun _ H => H) old new Hin) in Hocc.
  discriminate.
Qed.

Lemma formatted_unmarked s : marked s = false → formatted s = s.
Proof.
  intros H. rewrite formatted_table. apply replace_all_absent.
  intros old Hin. apply in_map_iff in Hin as ([old' new] & <- & Hin).
  destruct (table_ok_row _ _ _ table_ok_substitutions Hin) as (Hold & _).
  split; [done|]. apply not_true_is_false. intros Hocc.
  unfold marked in H. apply not_true_iff_false in H. apply H.
  apply existsb_exists. by exists (old', new).
Qed.

End TransformWhole.

(** X1: what [_format_string] returns holds no backslash-[n] and none
    of the sixteen tags any more, so running the transform on its own
    output changes nothing. *)
Theorem format_idempotent :
  ∀ s output : string,
    _format_string (VStr s) = Return output →
    marked output = false
    ∧ _format_string (VStr output) = Return output.
Proof.
  intros s output H. rewrite _format_string_returns in H.
  injection H as <-. split; [apply formatted_clean|].
  rewrite _format_string_returns. f_equal.
  apply formatted_unmarked, formatted_clean.
Qed.

Lemma format_idempotent_witness :
  marked (String "027" "[31mHi" +:+ NEWLINE) = false
  ∧ _format_string (VStr (String "027" "[31mHi" +:+ NEWLINE))
    = Return (String "027" "[31mHi" +:+ NEWLINE).
Proof.
  apply (format_idempotent ("{{COLOR_RED}}Hi" +:+ BACKSLASH_N)). reflexivity.
Defined.

(** X2: the transform never makes a text longer, and it returns a text
    unchanged exactly when the text holds no backslash-[n] and none of
    the sixteen tags. *)
Theorem format_unchanged_iff :
  ∀ s output : string,
    _format_string (VStr s) = Return output →
    (String.length output ≤ String.length s)%nat
    ∧ (output = s ↔ marked s = false).
Proof.
  intros s output H. rewrite _format_string_returns in H. injection H as <-.
  destruct (length_replace_all substitutions substitutions s
              table_ok_substitutions (fun _ H => H)) as [Hle Hlt].
  rewrite <- formatted_table in Hle, Hlt. split; [exact Hle|]. split.
  - intros Heq. apply not_true_is_false. intros Hm.
    specialize (Hlt Hm). rewrite Heq in Hlt. lia.
  - apply formatted_unmarked.
Qed.

Lemma format_unchanged_iff_witness :
  (String.length (String "027" "[31mstop") ≤ String.length "{{COLOR_RED}}stop")%nat
  ∧ (String "027" "[31mstop" = "{{COLOR_RED}}stop"
     ↔ marked "{{COLOR_RED}}stop" = false).
Proof. apply (format_unchanged_iff "{{COLOR_RED}}stop"). reflexivity. Defined.

Section TransformCuts.

Implicit Types (s t u p old : string) (c : ascii).

Lemma prefix_trans u p t :
  String.prefix u p = true → String.prefix p t = true →
  String.prefix u t = true.
Proof.
  revert p t. induction u as [|u0 u IH]; intros p t Hup Hpt;
    [apply prefix_nil|].
  destruct p as [|p0 p]; [done|]. destruct t as [|t0 t]; [done|].
  rewrite prefix_cons in *.
  destruct (Ascii.eqb u0 p0) eqn:E1; [|done].
  destruct (Ascii.eqb p0 t0) eqn:E2; [|done].
  apply Ascii.eqb_eq in E1 as ->. rewrite E2. by apply (IH p).
Qed.

(** Where a start of the pattern occurs nowhere, the pattern occurs
    nowhere. *)
Lemma occurs_prefix u p s :
  String.prefix u p = true → occurs u s = false → occurs p s = false.
Proof.
  intros Hup. induction s as [|c s IH]; [done|].
  cbn [occurs]. intros H. apply orb_false_iff in H as [Hpre Hocc].
  rewrite (IH Hocc), orb_false_r.
  destruct (String.prefix p (String c s)) eqn:E; [|done].
  by rewrite (prefix_trans _ _ _ Hup E) in Hpre.
Qed.

Lemma unmarked_plain_braces s :
  occurs BACKSLASH_N s = false → occurs "{{" s = false → marked s = false.
Proof.
  intros Hn Hb. unfold marked. apply not_true_is_false. intros H.
  apply existsb_exists in H as ([old new] & Hin & Hocc).
  assert (Hall : forallb (fun '(old, _) =>
                    String.eqb old BACKSLASH_N || String.prefix "{{" old)
                   substitutions = true) by reflexivity.
  rewrite forallb_forall in Hall. specialize (Hall _ Hin).
  cbn beta iota in Hall. apply orb_true_iff in Hall as [Heq|Hpre].
  - apply String.eqb_eq in Heq as ->. congruence.
  - rewrite (occurs_prefix _ _ _ Hpre Hb) in Hocc. discriminate.
Qed.

(** A one-character piece that no pattern has passes the table. *)
Lemma pass_separator c : ∀ l,
  forallb (fun '(old, _) => negb (PyStr.contains_char c old)) l = true →
  (∀ old new, In (old, new) l → old ≠ "") →
  pass l (String c "") = Some (String c "").
Proof.
  induction l as [|[old new] l IH]; intros Hsep Hne; [done|].
  cbn [forallb] in Hsep. apply andb_true_iff in Hsep as [Hc Hsep].
  apply negb_true_iff in Hc. cbn [pass].
  assert (Hold : old ≠ "") by (apply (Hne old new); by left).
  assert (Hright : ∀ u, PyStr.contains_char c u = false →
            clear_right_from u (String c "") = true).
  { induction u as [|u0 u IHu]; [done|].
    cbn [PyStr.contains_char clear_right_from].
    destruct (Ascii.eqb c u0) eqn:E; [done|]. intros Hu.
    rewrite (IHu Hu), andb_true_r. unfold clash.
    rewrite !prefix_cons, E, (Ascii.eqb_sym u0 c), E. done. }
  destruct old as [|o0 old]; [done|].
  cbn [PyStr.contains_char] in Hc.
  destruct (Ascii.eqb c o0) eqn:E; [done|].
  cbn [clear_right]. rewrite (Hright _ Hc).
  cbn [clear_left]. rewrite prefix_cons, E. cbn [negb orb andb].
  cbn [PyStr.replace PyStr.replace_from]. rewrite prefix_cons.
  rewrite (Ascii.eqb_sym o0 c), E.
  apply IH; [exact Hsep|]. intros old' new' Hin. apply (Hne old' new').
  by right.
Qed.

End TransformCuts.

(** X3: a text with no backslash-[n] and no two opening braces in a row
    comes back as it is; so [{variable}] placeholders, which have one
    brace, are never touched. *)
Theorem format_single_braces :
  ∀ s : string,
    occurs BACKSLASH_N s = false → occurs "{{" s = false →
    _format_string (VStr s) = Return s.
Proof.
  intros s Hn Hb. rewrite _format_string_returns. f_equal.
  by apply formatted_unmarked, unmarked_plain_braces.
Qed.

Lemma format_single_braces_witness :
  _format_string (VStr "Dear {name}, {count} files in C:\temp")
  = Return "Dear {name}, {count} files in C:\temp".
Proof. apply format_single_braces; reflexivity. Defined.

(** X4: the transform works piece by piece: a text can be cut at any
    character that no pattern has (a space, a digit, a lower-case
    letter other than [n], ...), and the transform of the whole is the
    transform of what stands before the character, the character, and
    the transform of what stands behind it. *)
Theorem format_cut_at_separator :
  ∀ (c : ascii) (a b : string),
    separator c = true →
    _format_string (VStr (a +:+ String c b))
    = Return (formatted a +:+ String c (formatted b)).
Proof.
  intros c a b Hsep. rewrite _format_string_returns. f_equal.
  change (a +:+ String c b) with (a +:+ String c "" +:+ b).
  rewrite (formatted_mid (String c "") (String c "")); [reflexivity|].
  apply pass_separator; [exact Hsep|].
  intros old new Hin.
  by destruct (table_ok_row _ _ _ table_ok_substitutions Hin) as (? & _).
Qed.

Lemma format_cut_at_separator_witness :
  _format_string (VStr ("{{COLOR_RED}}stop" +:+ String " " "{{COLOR_NONE}}now"))
  = Return (formatted "{{COLOR_RED}}stop" +:+ String " " (formatted "{{COLOR_NONE}}now")).
Proof. apply format_cut_at_separator. reflexivity. Defined.

(** * Further facts about interpolation *)

Section InterpolationMore.

Context {SL : StrLower}.

Implicit Types (map : string → option (option string))
  (option section rest name v a b : string) (deeper : string → outcome string).

(** Interpolation raises interpolation errors only. *)
Lemma _interpolate_loop_errors deeper map option section :
  (∀ v e, deeper v = Raise e → interpolation_error e = true) →
  ∀ rest skip e,
    ConfigParser._interpolate_loop deeper map option section skip rest = Raise e →
    interpolation_error e = true.
Proof.
  intros Hdeep. induction rest as [|c rest IH]; intros skip e; [done|].
  cbn [ConfigParser._interpolate_loop]. destruct skip as [|k]; [|apply IH].
  destruct (Ascii.eqb c "%"%char).
  - destruct rest as [|c1 after]; [by intros [= <-]|].
    destruct (Ascii.eqb c1 "%"%char).
    + pose proof (IH 1%nat) as H1.
      destruct (ConfigParser._interpolate_loop deeper map option section 1
                  (String c1 after)); unfold mbind, outcome_bind; [done|].
      intros [= <-]. by eapply H1.
    + destruct (Ascii.eqb c1 "("%char); [|by intros [= <-]].
      destruct (ConfigParser.keycre after) as [name|]; [|by intros [= <-]].
      destruct (map (ConfigParser.optionxform name)) as [[v|]|];
        [|by intros [= <-]|by intros [= <-]].
      pose proof (IH (String.length name + 3)%nat) as H1.
      pose proof (Hdeep v) as H2.
      destruct (ConfigParser._interpolate_loop deeper map option section
                  (String.length name + 3) (String c1 after));
        destruct (PyStr.contains_char "%"%char v);
        try destruct (deeper v);
        unfold mbind, outcome_bind; try done;
        intros [= <-]; eauto.
  - pose proof (IH 0%nat) as H1.
    destruct (ConfigParser._interpolate_loop deeper map option section 0 rest);
      unfold mbind, outcome_bind; [done|].
    intros [= <-]. by eapply H1.
Qed.

Lemma before_get_errors map section option v e :
  ConfigParser.before_get map section option v = Raise e →
  interpolation_error e = true.
Proof.
  unfold ConfigParser.before_get.
  generalize ConfigParser.MAX_INTERPOLATION_DEPTH. intros fuel.
  revert v e. induction fuel as [|fuel IH]; intros v e.
  - by intros [= <-].
  - cbn [ConfigParser._interpolate_some].
    by apply _interpolate_loop_errors.
Qed.

(** A stretch without a percent sign goes to the output as it is. *)
Lemma _interpolate_loop_app deeper map option section a : ∀ rest,
  PyStr.contains_char "%"%char a = false →
  ConfigParser._interpolate_loop deeper map option section 0 (a +:+ rest)
  = (accum ← ConfigParser._interpolate_loop deeper map option section 0 rest;
     Return (a +:+ accum)).
Proof.
  intros rest. induction a as [|c a IH]; intros Ha.
  - rewrite app_nil_l.
    by destruct (ConfigParser._interpolate_loop deeper map option section 0 rest).
  - cbn [PyStr.contains_char] in Ha. rewrite app_cons.
    cbn [ConfigParser._interpolate_loop].
    rewrite (Ascii.eqb_sym c "%"%char).
    destruct (Ascii.eqb "%"%char c); [done|]. rewrite (IH Ha).
    by destruct (ConfigParser._interpolate_loop deeper map option section 0 rest).
Qed.

(** Characters under [skip] are passed over. *)
Lemma _interpolate_loop_skip deeper map option section a : ∀ rest,
  ConfigParser._interpolate_loop deeper map option section
    (String.length a) (a +:+ rest)
  = ConfigParser._interpolate_loop deeper map option section 0 rest.
Proof.
  intros rest. induction a as [|c a IH]; [done|].
  rewrite app_cons. cbn [String.length ConfigParser._interpolate_loop].
  exact IH.
Qed.

(** Doubled percent signs come out single. *)
Lemma _interpolate_loop_escape deeper map option section t :
  ConfigParser._interpolate_loop deeper map option section 0 (escape_percent t)
  = Return t.
Proof.
  induction t as [|c t IH]; [done|].
  cbn [escape_percent]. destruct (Ascii.eqb c "%"%char) eqn:E.
  - apply Ascii.eqb_eq in E as ->.
    cbn [ConfigParser._interpolate_loop]. rewrite Ascii.eqb_refl.
    cbn [ConfigParser._interpolate_loop]. by rewrite IH.
  - cbn [ConfigParser._interpolate_loop]. rewrite E. by rewrite IH.
Qed.

Lemma before_get_escape map section option t :
  ConfigParser.before_get map section option (escape_percent t) = Return t.
Proof. apply _interpolate_loop_escape. Qed.

(** The reference pattern matches a well-formed reference. *)
Lemma keycre_name_reference name rest :
  PyStr.contains_char ")"%char name = false →
  ConfigParser.keycre_name (name +:+ ")s" +:+ rest) = Some name.
Proof.
  induction name as [|c name IH].
  { intros _. change ("" +:+ ")s" +:+ rest) with (String ")" (String "s" rest)).
    cbn [ConfigParser.keycre_name]. cbn [Ascii.eqb Bool.eqb].
    by rewrite prefix_cons, prefix_nil. }
  cbn [PyStr.contains_char]. rewrite app_cons.
  cbn [ConfigParser.keycre_name]. rewrite (Ascii.eqb_sym c ")"%char).
  destruct (Ascii.eqb ")"%char c); [done|]. intros H. by rewrite (IH H).
Qed.

Lemma keycre_reference name rest :
  reference_name name = true →
  ConfigParser.keycre (name +:+ ")s" +:+ rest) = Some name.
Proof.
  unfold reference_name, ConfigParser.keycre. intros H.
  apply andb_true_iff in H as [Hne Hc].
  apply negb_true_iff in Hne, Hc. rewrite (keycre_name_reference _ _ Hc).
  destruct name; [done|done].
Qed.

(** One reference, at the first level. *)
Lemma _interpolate_loop_reference deeper map option section name v b :
  reference_name name = true →
  map (ConfigParser.optionxform name) = Some (Some v) →
  PyStr.contains_char "%"%char v = false →
  ConfigParser._interpolate_loop deeper map option section 0
    ("%(" +:+ name +:+ ")s" +:+ b)
  = (accum ← ConfigParser._interpolate_loop deeper map option section 0 b;
     Return (v +:+ accum)).
Proof.
  intros Hname Hmap Hv.
  change ("%(" +:+ name +:+ ")s" +:+ b)
    with (String "%" (String "(" (name +:+ ")s" +:+ b))).
  cbn [ConfigParser._interpolate_loop]. cbn [Ascii.eqb Bool.eqb].
  rewrite (keycre_reference _ _ Hname), Hmap, Hv.
  cbn [mbind outcome_bind].
  assert (Hlen : (String.length name + 3)%nat
                 = S (String.length (name +:+ ")s"))).
  { rewrite length_app. simpl. lia. }
  rewrite Hlen. rewrite <- (app_assoc name ")s" b).
  by rewrite _interpolate_loop_skip.
Qed.

End InterpolationMore.

(** * Further properties of the lookups *)

(** X5: the exceptions that can leave a lookup.  [get_error_msg] raises
    nothing but a [LocalizationError] of code 2 or 3, an
    [AssertionError], or an error of interpolation; [get_msg] the same
    with codes 4 and 5.  The parser's own [NoSectionError] and
    [NoOptionError] never reach the caller. *)
Theorem lookup_exceptions {SL : StrLower} :
  ∀ (self : LocalizedResource) (key : value) (e : exn),
    (fst (get_error_msg key self) = Raise e →
     (∃ message, e = LocalizationError message 2)
     ∨ (∃ message, e = LocalizationError message 3)
     ∨ e = AssertionError ∨ interpolation_error e = true)
    ∧ (fst (get_msg key self) = Raise e →
       (∃ message, e = LocalizationError message 4)
       ∨ (∃ message, e = LocalizationError message 5)
       ∨ e = AssertionError ∨ interpolation_error e = true).
Proof.
  intros self key e. split.
  - destruct (type_is key str_t || type_is key int_t) eqn:Hty.
    + rewrite (get_error_msg_cases _ _ Hty). cbn [fst].
      destruct (ConfigParser._sections (parser self) !! "error_codes")
        as [sectiondict|]; [|intros [= <-]; eauto].
      cbn zeta. destruct (ConfigParser.chain _ _ _) as [[v|]|];
        [|intros [= <-]; eauto|intros [= <-]; eauto].
      destruct (ConfigParser.before_get _ _ _ v) eqn:E; [done|].
      intros [= <-]. apply before_get_errors in E. eauto.
    + rewrite (get_error_msg_assert _ _ Hty). intros [= <-]. eauto.
  - destruct (type_is key str_t) eqn:Hty.
    + rewrite (get_msg_cases _ _ Hty). cbn [fst].
      destruct (ConfigParser._sections (parser self) !! "messages")
        as [sectiondict|]; [|intros [= <-]; eauto].
      cbn zeta. destruct (ConfigParser.chain _ _ _) as [[v|]|];
        [|intros [= <-]; eauto|intros [= <-]; eauto].
      destruct (ConfigParser.before_get _ _ _ v) eqn:E; [done|].
      intros [= <-]. apply before_get_errors in E. eauto.
    + rewrite (get_msg_assert _ _ Hty). intros [= <-]. eauto.
Qed.

Lemma lookup_exceptions_witness :
  (∃ message, InterpolationSyntaxError "102" "error_codes"
              = LocalizationError message 2)
  ∨ (∃ message, InterpolationSyntaxError "102" "error_codes"
                = LocalizationError message 3)
  ∨ InterpolationSyntaxError "102" "error_codes" = AssertionError
  ∨ interpolation_error (InterpolationSyntaxError "102" "error_codes") = true.
Proof.
  apply (proj1 (lookup_exceptions sample_resource (VInt 102) _)). reflexivity.
Defined.

(** X6: when the assertions fail.  [get_error_msg] raises
    [AssertionError] exactly when the code is neither a [str] nor an
    [int] (a [bool] is not an [int] here), or the section is there and
    the option is one stored without a value; [get_msg] exactly when
    the key is not a [str] (an [int] is refused), or the option is one
    stored without a value. *)
Theorem lookup_assertions {SL : StrLower} :
  ∀ (self : LocalizedResource) (key : value),
    (fst (get_error_msg key self) = Raise AssertionError
     ↔ type_is key str_t || type_is key int_t = false
       ∨ ∃ sectiondict,
           ConfigParser._sections (parser self) !! "error_codes"
           = Some sectiondict
           ∧ ConfigParser.chain sectiondict
               (ConfigParser._defaults (parser self)) (str_lower (str key))
             = Some None)
    ∧ (fst (get_msg key self) = Raise AssertionError
       ↔ type_is key str_t = false
         ∨ ∃ sectiondict,
             ConfigParser._sections (parser self) !! "messages"
             = Some sectiondict
             ∧ ConfigParser.chain sectiondict
                 (ConfigParser._defaults (parser self)) (str_lower (str key))
               = Some None).
Proof.
  intros self key. split.
  - destruct (type_is key str_t || type_is key int_t) eqn:Hty.
    + rewrite (get_error_msg_cases _ _ Hty). cbn [fst].
      unfold ConfigParser.optionxform.
      destruct (ConfigParser._sections (parser self) !! "error_codes")
        as [sectiondict|].
      * cbn zeta. destruct (ConfigParser.chain _ _ _) as [[v|]|] eqn:Hch.
        -- split.
           ++ destruct (ConfigParser.before_get _ _ _ v) eqn:E; [done|].
              intros [= ->]. by apply before_get_errors in E.
           ++ intros [|(sd & [= <-] & H)]; [done|]. congruence.
        -- split; [|done]. intros _. right. eauto.
        -- split; [done|]. intros [|(sd & [= <-] & H)]; [done|]. congruence.
      * split; [done|]. intros [|(sd & ? & _)]; done.
    + rewrite (get_error_msg_assert _ _ Hty). split; [by left | done].
  - destruct (type_is key str_t) eqn:Hty.
    + rewrite (get_msg_cases _ _ Hty). cbn [fst].
      unfold ConfigParser.optionxform.
      destruct (ConfigParser._sections (parser self) !! "messages")
        as [sectiondict|].
      * cbn zeta. destruct (ConfigParser.chain _ _ _) as [[v|]|] eqn:Hch.
        -- split.
           ++ destruct (ConfigParser.before_get _ _ _ v) eqn:E; [done|].
              intros [= ->]. by apply before_get_errors in E.
           ++ intros [|(sd & [= <-] & H)]; [done|]. congruence.
        -- split; [|done]. intros _. right. eauto.
        -- split; [done|]. intros [|(sd & [= <-] & H)]; [done|]. congruence.
      * split; [done|]. intros [|(sd & ? & _)]; done.
    + rewrite (get_msg_assert _ _ Hty). split; [by left | done].
Qed.

(** X7: a percent sign is stored doubled.  When the option holds a text
    with every percent sign doubled, both lookups return the transform
    of the text with single percent signs. *)
Theorem lookup_escaped_percent {SL : StrLower} :
  ∀ (self : LocalizedResource) (key : value)
    (sectiondict : gmap string (option string)) (t : string),
    ConfigParser.chain sectiondict (ConfigParser._defaults (parser self))
      (str_lower (str key)) = Some (Some (escape_percent t)) →
    (type_is key str_t || type_is key int_t = true →
     ConfigParser._sections (parser self) !! "error_codes" = Some sectiondict →
     fst (get_error_msg key self) = _format_string (VStr t))
    ∧ (type_is key str_t = true →
       ConfigParser._sections (parser self) !! "messages" = Some sectiondict →
       fst (get_msg key self) = _format_string (VStr t)).
Proof.
  intros self key sectiondict t Hch. split; intros Hty Hsec.
  - rewrite (get_error_msg_cases _ _ Hty). cbn [fst]. rewrite Hsec. cbn zeta.
    unfold ConfigParser.optionxform. rewrite Hch.
    by rewrite before_get_escape.
  - rewrite (get_msg_cases _ _ Hty). cbn [fst]. rewrite Hsec. cbn zeta.
    unfold ConfigParser.optionxform. rewrite Hch.
    by rewrite before_get_escape.
Qed.

Lemma lookup_escaped_percent_witness :
  fst (get_msg (VStr "rate")
         (one_section "messages" {[ "rate" := Some "50%% off" ]}))
  = _format_string (VStr "50% off").
Proof.
  refine (proj2 (lookup_escaped_percent
                   (one_section "messages" {[ "rate" := Some "50%% off" ]})
                   (VStr "rate") {[ "rate" := Some "50%% off" ]} "50% off"
                   _) _ _);
    reflexivity.
Defined.

(** X8: a template can refer to another option.  When the option holds
    [a%(name)sb], with no other percent sign in [a] and [b], and the
    option [name] (lower-cased, looked up in the same section, then in
    [DEFAULT]) holds a text [v] without a percent sign, both lookups
    return the transform of [a], [v] and [b] joined. *)
Theorem lookup_reference {SL : StrLower} :
  ∀ (self : LocalizedResource) (key : value)
    (sectiondict : gmap string (option string)) (a name b v : string),
    ConfigParser.chain sectiondict (ConfigParser._defaults (parser self))
      (str_lower (str key))
    = Some (Some (a +:+ "%(" +:+ name +:+ ")s" +:+ b)) →
    PyStr.contains_char "%" a = false →
    PyStr.contains_char "%" b = false →
    reference_name name = true →
    ConfigParser.chain sectiondict (ConfigParser._defaults (parser self))
      (str_lower name) = Some (Some v) →
    PyStr.contains_char "%" v = false →
    (type_is key str_t || type_is key int_t = true →
     ConfigParser._sections (parser self) !! "error_codes" = Some sectiondict →
     fst (get_error_msg key self) = _format_string (VStr (a +:+ v +:+ b)))
    ∧ (type_is key str_t = true →
       ConfigParser._sections (parser self) !! "messages" = Some sectiondict →
       fst (get_msg key self) = _format_string (VStr (a +:+ v +:+ b))).
Proof.
  intros self key sectiondict a name b v Hch Ha Hb Hname Hv Hvp.
  assert (Hget : ∀ section option,
            ConfigParser.before_get
              (ConfigParser.chain sectiondict
                 (ConfigParser._defaults (parser self)))
              section option (a +:+ "%(" +:+ name +:+ ")s" +:+ b)
            = Return (a +:+ v +:+ b)).
  { intros section option. unfold ConfigParser.before_get.
    unfold ConfigParser.MAX_INTERPOLATION_DEPTH.
    cbn [ConfigParser._interpolate_some].
    rewrite (_interpolate_loop_app _ _ _ _ a _ Ha).
    rewrite (_interpolate_loop_reference _ _ _ _ name v b Hname Hv Hvp).
    by rewrite (_interpolate_loop_no_percent _ _ _ _ b Hb). }
  split; intros Hty Hsec.
  - rewrite (get_error_msg_cases _ _ Hty). cbn [fst]. rewrite Hsec. cbn zeta.
    unfold ConfigParser.optionxform. rewrite Hch. by rewrite Hget.
  - rewrite (get_msg_cases _ _ Hty). cbn [fst]. rewrite Hsec. cbn zeta.
    unfold ConfigParser.optionxform. rewrite Hch. by rewrite Hget.
Qed.

Lemma lookup_reference_witness :
  fst (get_msg (VStr "bye")
         (one_section "messages"
            {[ "bye" := Some "Bye from %(App)s!";
               "app" := Some "{{COLOR_BLUE}}bvz" ]}))
  = _format_string (VStr ("Bye from " +:+ "{{COLOR_BLUE}}bvz" +:+ "!")).
Proof.
  refine (proj2 (lookup_reference
                   (one_section "messages"
                      {[ "bye" := Some "Bye from %(App)s!";
                         "app" := Some "{{COLOR_BLUE}}bvz" ]})
                   (VStr "bye")
                   {[ "bye" := Some "Bye from %(App)s!";
                      "app" := Some "{{COLOR_BLUE}}bvz" ]}
                   "Bye from " "App" "!" "{{COLOR_BLUE}}bvz"
                   _ _ _ _ _ _) _ _);
    reflexivity.
Defined.

Section SelfReference.

Context {SL : StrLower}.

Implicit Types (map : string → option (option string))
  (option section name : string).

(** A template that is a reference to itself uses up every level. *)
Lemma _interpolate_some_self map option section name :
  reference_name name = true →
  map (ConfigParser.optionxform name) = Some (Some ("%(" +:+ name +:+ ")s")) →
  ∀ fuel,
    ConfigParser._interpolate_some fuel map option section
      ("%(" +:+ name +:+ ")s")
    = Raise (InterpolationDepthError option section).
Proof.
  intros Hname Hmap. induction fuel as [|fuel IH]; [done|].
  cbn [ConfigParser._interpolate_some].
  change ("%(" +:+ name +:+ ")s")
    with (String "%" (String "(" (name +:+ ")s" +:+ ""))).
  cbn [ConfigParser._interpolate_loop]. cbn [Ascii.eqb Bool.eqb].
  rewrite (keycre_reference _ _ Hname), Hmap.
  change (PyStr.contains_char "%" ("%(" +:+ name +:+ ")s")) with true.
  cbn iota. by rewrite IH.
Qed.

End SelfReference.

(** X9: a template that refers to its own option never comes back: the
    lookup raises [InterpolationDepthError], for [get_error_msg] and for
    [get_msg]. *)
Theorem lookup_self_reference {SL : StrLower} :
  ∀ (self : LocalizedResource) (key : value)
    (sectiondict : gmap string (option string)) (name : string),
    reference_name name = true →
    str_lower name = str_lower (str key) →
    ConfigParser.chain sectiondict (ConfigParser._defaults (parser self))
      (str_lower (str key)) = Some (Some ("%(" +:+ name +:+ ")s")) →
    (type_is key str_t || type_is key int_t = true →
     ConfigParser._sections (parser self) !! "error_codes" = Some sectiondict →
     fst (get_error_msg key self)
     = Raise (InterpolationDepthError (str_lower (str key)) "error_codes"))
    ∧ (type_is key str_t = true →
       ConfigParser._sections (parser self) !! "messages" = Some sectiondict →
       fst (get_msg key self)
       = Raise (InterpolationDepthError (str_lower (str key)) "messages")).
Proof.
  intros self key sectiondict name Hname Hlow Hch.
  assert (Hget : ∀ section,
            ConfigParser.before_get
              (ConfigParser.chain sectiondict
                 (ConfigParser._defaults (parser self)))
              section (str_lower (str key)) ("%(" +:+ name +:+ ")s")
            = Raise (InterpolationDepthError (str_lower (str key)) section)).
  { intros section. apply _interpolate_some_self; [done|].
    unfold ConfigParser.optionxform. by rewrite Hlow. }
  split; intros Hty Hsec.
  - rewrite (get_error_msg_cases _ _ Hty). cbn [fst]. rewrite Hsec. cbn zeta.
    unfold ConfigParser.optionxform. rewrite Hch. by rewrite Hget.
  - rewrite (get_msg_cases _ _ Hty). cbn [fst]. rewrite Hsec. cbn zeta.
    unfold ConfigParser.optionxform. rewrite Hch. by rewrite Hget.
Qed.

Lemma lookup_self_reference_witness :
  fst (get_error_msg (VInt 7)
         (one_section "error_codes" {[ "7" := Some "%(7)s" ]}))
  = Raise (InterpolationDepthError "7" "error_codes").
Proof.
  refine (proj1 (lookup_self_reference
                   (one_section "error_codes" {[ "7" := Some "%(7)s" ]})
                   (VInt 7) {[ "7" := Some "%(7)s" ]} "7"
                   _ _ _) _ _);
    reflexivity.
Defined.

(** X10: keys are matched without regard to case.  Two keys with the
    same lower-casing get the same outcome from a lookup, except that
    the message of the missing-key error (code 3 or 5) spells the key
    as the caller wrote it. *)
Theorem lookup_ignores_case {SL : StrLower} :
  ∀ (self : LocalizedResource) (k k' : string),
    str_lower k = str_lower k' →
    (fst (get_error_msg (VStr k) self) = fst (get_error_msg (VStr k') self)
     ∨ ∃ message message',
         fst (get_error_msg (VStr k) self)
         = Raise (LocalizationError message 3)
         ∧ fst (get_error_msg (VStr k') self)
           = Raise (LocalizationError message' 3))
    ∧ (fst (get_msg (VStr k) self) = fst (get_msg (VStr k') self)
       ∨ ∃ message message',
           fst (get_msg (VStr k) self) = Raise (LocalizationError message 5)
           ∧ fst (get_msg (VStr k') self)
             = Raise (LocalizationError message' 5)).
Proof.
  intros self k k' Hlow. split.
  - rewrite !get_error_msg_cases by reflexivity. cbn [fst].
    destruct (ConfigParser._sections (parser self) !! "error_codes")
      as [sectiondict|]; [|by left].
    cbn zeta. unfold ConfigParser.optionxform. cbn [str]. rewrite <- Hlow.
    destruct (ConfigParser.chain _ _ _) as [[v|]|]; [by left | by left |].
    right. eauto.
  - rewrite !get_msg_cases by reflexivity. cbn [fst].
    destruct (ConfigParser._sections (parser self) !! "messages")
      as [sectiondict|]; [|by left].
    cbn zeta. unfold ConfigParser.optionxform. cbn [str]. rewrite <- Hlow.
    destruct (ConfigParser.chain _ _ _) as [[v|]|]; [by left | by left |].
    right. eauto.
Qed.

Lemma lookup_ignores_case_witness :
  fst (get_msg (VStr "HELLO") sample_resource)
  = fst (get_msg (VStr "Hello") sample_resource)
  ∨ ∃ message message',
      fst (get_msg (VStr "HELLO") sample_resource)
      = Raise (LocalizationError message 5)
      ∧ fst (get_msg (VStr "Hello") sample_resource)
        = Raise (LocalizationError message' 5).
Proof.
  refine (proj2 (lookup_ignores_case sample_resource "HELLO" "Hello" _)).
  reflexivity.
Defined.

(** X11: a lookup reads its own section, the [DEFAULT] section and the
    path of the instance, and nothing else: two instances that agree on
    these get the same outcome, whatever their other sections hold. *)
Theorem lookup_reads_own_section {SL : StrLower} :
  ∀ (self self' : LocalizedResource) (key : value),
    ConfigParser._defaults (parser self) = ConfigParser._defaults (parser self') →
    resources_p self = resources_p self' →
    (ConfigParser._sections (parser self) !! "error_codes"
     = ConfigParser._sections (parser self') !! "error_codes" →
     fst (get_error_msg key self) = fst (get_error_msg key self'))
    ∧ (ConfigParser._sections (parser self) !! "messages"
       = ConfigParser._sections (parser self') !! "messages" →
       fst (get_msg key self) = fst (get_msg key self')).
Proof.
  intros self self' key Hdef Hp. split; intros Hsec.
  - destruct (type_is key str_t || type_is key int_t) eqn:Hty.
    + rewrite !(get_error_msg_cases _ _ Hty). cbn [fst].
      by rewrite Hsec, Hdef, Hp.
    + by rewrite !(get_error_msg_assert _ _ Hty).
  - destruct (type_is key str_t) eqn:Hty.
    + rewrite !(get_msg_cases _ _ Hty). cbn [fst].
      by rewrite Hsec, Hdef, Hp.
    + by rewrite !(get_msg_assert _ _ Hty).
Qed.

Lemma lookup_reads_own_section_witness :
  fst (get_error_msg (VInt 101) sample_resource)
  = fst (get_error_msg (VInt 101)
           (one_section "error_codes"
              {[ "101" := Some "Error {{COLOR_RED}}number {num}{{COLOR_NONE}}";
                 "102" := Some "Done: 100% sure" ]})).
Proof.
  refine (proj1 (lookup_reads_own_section sample_resource
                   (one_section "error_codes"
                      {[ "101" := Some "Error {{COLOR_RED}}number {num}{{COLOR_NONE}}";
                         "102" := Some "Done: 100% sure" ]})
                   (VInt 101) _ _) _);
    reflexivity.
Defined.

(** * Further properties of the constructor *)

Section ConstructionMore.

Implicit Types (env : Env) (d prefix name : string) (language : option string).

Lemma startswith_file_name prefix rest :
  PyStr.startswith (prefix +:+ "_" +:+ rest) "/" = PyStr.startswith prefix "/".
Proof.
  unfold PyStr.startswith. destruct prefix as [|c prefix]; [done|].
  rewrite app_cons, !prefix_cons. by rewrite !prefix_nil.
Qed.

(** A value that is not a [str] stops the constructor at its first
    line. *)
Lemma new_not_str env v prefix language :
  type_is v str_t = false → new env v prefix language = Raise AssertionError.
Proof. intros Hty. unfold new, __init__, lift, mbind, M_bind. by rewrite Hty. Qed.

End ConstructionMore.

(** X12: how the constructor fails.  A [resources_d] that is not a
    [str] raises [AssertionError] before the file system is looked at;
    otherwise the only exceptions are the [LocalizationError] of code 0
    (no such directory), the one of code 1 (directory there, no such
    file), and, with both there, whatever the reader of the file raises,
    passed on as it is. *)
Theorem construction_failures :
  (∀ (env : Env) (v : value) (prefix : string) (language : option string),
     type_is v str_t = false →
     new env v prefix language = Raise AssertionError)
  ∧ (∀ (env : Env) (d prefix : string) (language : option string) (e : exn),
       new env (VStr d) prefix language = Raise e ↔
       (path_exists env d = false
        ∧ e = LocalizationError
                ("Resources directory " +:+ d +:+ " does not exist.") 0)
       ∨ (path_exists env d = true
          ∧ path_exists env
              (path_join d (prefix +:+ "_" +:+ default "english" language
                            +:+ ".ini")) = false
          ∧ e = LocalizationError
                  ("Cannot locate resource file: "
                   +:+ path_abspath env
                         (path_join d (prefix +:+ "_"
                                       +:+ default "english" language
                                       +:+ ".ini"))) 1)
       ∨ (path_exists env d = true
          ∧ path_exists env
              (path_join d (prefix +:+ "_" +:+ default "english" language
                            +:+ ".ini")) = true
          ∧ parse env
              (path_join d (prefix +:+ "_" +:+ default "english" language
                            +:+ ".ini")) = Raise e)).
Proof.
  split; [apply new_not_str|].
  intros env d prefix language e. rewrite new_cases.
  destruct (path_exists env d); cbn [negb].
  - destruct (path_exists env _); cbn [negb].
    + destruct (parse env _) as [parsed|e'].
      * split; [done|]. by intros [[? _]|[(_ & ? & _)|(_ & _ & ?)]].
      * split.
        -- intros [= ->]. right. right. done.
        -- intros [[? _]|[(_ & ? & _)|(_ & _ & [= ->])]]; done.
    + split.
      * intros [= <-]. right. left. done.
      * intros [[? _]|[(_ & _ & ->)|(_ & ? & _)]]; done.
  - split.
    + intros [= <-]. by left.
    + intros [[_ ->]|[(? & _)|(? & _)]]; done.
Qed.

Lemma construction_failures_witness :
  new sample_env (VInt 3) "app" None = Raise AssertionError.
Proof. apply (proj1 construction_failures). reflexivity. Defined.

(** X13: the attributes of a constructed instance.  [resources_d] is the
    directory given, [resources_n] the file name, and [resources_p]
    their join: the name alone when the prefix starts with a slash (the
    directory is then left aside), the directory and the name put
    together when the directory is empty or ends with a slash, and the
    two with a slash between them otherwise. *)
Theorem constructed_attributes :
  ∀ (env : Env) (d prefix : string) (language : option string)
    (self : LocalizedResource),
    new env (VStr d) prefix language = Return self →
    resources_d self = d
    ∧ resources_n self = prefix +:+ "_" +:+ default "english" language +:+ ".ini"
    ∧ resources_p self = path_join (resources_d self) (resources_n self)
    ∧ (PyStr.startswith prefix "/" = true →
       resources_p self = resources_n self)
    ∧ (PyStr.startswith prefix "/" = false →
       String.eqb d "" || PyStr.endswith_char d "/" = true →
       resources_p self = d +:+ resources_n self)
    ∧ (PyStr.startswith prefix "/" = false →
       String.eqb d "" || PyStr.endswith_char d "/" = false →
       resources_p self = d +:+ "/" +:+ resources_n self).
Proof.
  intros env d prefix language self Hnew. rewrite new_cases in Hnew.
  destruct (negb (path_exists env d)); [discriminate|].
  destruct (negb (path_exists env _)); [discriminate|].
  destruct (parse env _); [|discriminate].
  injection Hnew as <-. cbn [resources_d resources_n resources_p].
  repeat split; unfold path_join; rewrite startswith_file_name.
  - by intros ->.
  - by intros -> ->.
  - by intros -> ->.
Qed.

Lemma constructed_attributes_witness :
  resources_d sample_resource = "/res"
  ∧ resources_n sample_resource = "app" +:+ "_" +:+ "english" +:+ ".ini"
  ∧ resources_p sample_resource
    = path_join (resources_d sample_resource) (resources_n sample_resource)
  ∧ (PyStr.startswith "app" "/" = true →
     resources_p sample_resource = resources_n sample_resource)
  ∧ (PyStr.startswith "app" "/" = false →
     String.eqb "/res" "" || PyStr.endswith_char "/res" "/" = true →
     resources_p sample_resource = "/res" +:+ resources_n sample_resource)
  ∧ (PyStr.startswith "app" "/" = false →
     String.eqb "/res" "" || PyStr.endswith_char "/res" "/" = false →
     resources_p sample_resource
     = "/res" +:+ "/" +:+ resources_n sample_resource).
Proof.
  apply (constructed_attributes sample_env "/res" "app" None sample_resource).
  reflexivity.
Defined.

(** X14: from the file to the message.  With the directory and the file
    there and the file read without error, the constructor succeeds, and
    a lookup on the instance returns the transform of the text that the
    file holds for the lower-cased key in the lookup's section, when
    that text has no percent sign. *)
Theorem construct_then_lookup {SL : StrLower} :
  ∀ (env : Env) (d prefix : string) (language : option string)
    (parsed : ConfigParser.t) (key : value)
    (sectiondict : gmap string (option string)) (v : string),
    path_exists env d = true →
    path_exists env
      (path_join d (prefix +:+ "_" +:+ default "english" language +:+ ".ini"))
    = true →
    parse env
      (path_join d (prefix +:+ "_" +:+ default "english" language +:+ ".ini"))
    = Return parsed →
    sectiondict !! str_lower (str key) = Some (Some v) →
    PyStr.contains_char "%" v = false →
    ∃ self,
      new env (VStr d) prefix language = Return self
      ∧ (type_is key str_t || type_is key int_t = true →
         ConfigParser._sections parsed !! "error_codes" = Some sectiondict →
         fst (get_error_msg key self) = _format_string (VStr v))
      ∧ (type_is key str_t = true →
         ConfigParser._sections parsed !! "messages" = Some sectiondict →
         fst (get_msg key self) = _format_string (VStr v)).
Proof.
  intros env d prefix language parsed key sectiondict v Hd Hp Hparse Hopt Hv.
  eexists. rewrite new_cases, Hd, Hp, Hparse. cbn [negb].
  split; [reflexivity|]. split; intros Hty Hsec.
  - rewrite (get_error_msg_cases _ _ Hty). cbn [fst parser]. rewrite Hsec.
    cbn zeta. unfold ConfigParser.optionxform, ConfigParser.chain at 1.
    rewrite Hopt. by rewrite before_get_no_percent.
  - rewrite (get_msg_cases _ _ Hty). cbn [fst parser]. rewrite Hsec.
    cbn zeta. unfold ConfigParser.optionxform, ConfigParser.chain at 1.
    rewrite Hopt. by rewrite before_get_no_percent.
Qed.

Lemma construct_then_lookup_witness :
  ∃ self,
    new sample_env (VStr "/res") "app" None = Return self
    ∧ (type_is (VStr "Hello") str_t || type_is (VStr "Hello") int_t = true →
       ConfigParser._sections app_english !! "error_codes"
       = Some {[ "hello" := Some "{{COLOR_GREEN}}Hello {name}{{COLOR_NONE}}";
                 "rate" := Some "50% off"; "flag" := None ]} →
       fst (get_error_msg (VStr "Hello") self)
       = _format_string (VStr "{{COLOR_GREEN}}Hello {name}{{COLOR_NONE}}"))
    ∧ (type_is (VStr "Hello") str_t = true →
       ConfigParser._sections app_english !! "messages"
       = Some {[ "hello" := Some "{{COLOR_GREEN}}Hello {name}{{COLOR_NONE}}";
                 "rate" := Some "50% off"; "flag" := None ]} →
       fst (get_msg (VStr "Hello") self)
       = _format_string (VStr "{{COLOR_GREEN}}Hello {name}{{COLOR_NONE}}")).
Proof.
  refine (construct_then_lookup sample_env "/res" "app" None app_english
            (VStr "Hello")
            {[ "hello" := Some "{{COLOR_GREEN}}Hello {name}{{COLOR_NONE}}";
               "rate" := Some "50% off"; "flag" := None ]}
            "{{COLOR_GREEN}}Hello {name}{{COLOR_NONE}}" _ _ _ _ _);
    reflexivity.
Defined.


(** * Keys beyond 7-bit text *)

(** With it, the key written in capitals finds the option that the file
    holds in small letters, and a key that is not there is reported
    missing as the caller wrote it. *)
Example get_msg_accented_key :
  fst (get_msg (SL := accent_lower) (VStr "ÉTÉ")
         (one_section "messages" {[ "été" := Some "{{COLOR_YELLOW}}summer" ]}))
  = Return (String "027" "[33msummer")
  ∧ fst (get_error_msg (SL := accent_lower) (VStr "ÉTÉ")
           (one_section "error_codes" {[ "hiver" := Some "winter" ]}))
    = Raise (LocalizationError
               "Localization file /res/app_english.ini is corrupt: It is missing the error_code: ÉTÉ."
               3).
Proof. split; reflexivity. Qed.
